(** * xBotV5 core: the Signal value object and the Bot life cycle

    A shallow embedding of [src/xbotv5/core/signal.py] and
    [src/xbotv5/core/bot.py], and the properties the specification states
    about them.

    Conventions of the embedding:
    - a Python call that can raise returns a [result]; the exception keeps
      its class and its message;
    - Python [float]s are exact rationals extended with the two infinities
      and NaN ([pyfloat]); rounding is not modelled, the special values and
      the way they compare are;
    - [dict]s are [gmap]s with string keys;
    - the bot is a record, its methods are state transformers over the bot
      and the list of the effects it has had on its collaborators (hook
      calls, log lines, published events);
    - the hooks a concrete bot overrides are functions supplied in a
      record ([Hooks]). *)

From Stdlib Require Import QArith ZArith NArith Lia Ascii String.
From stdpp Require Import gmap strings list fin_maps.

#[local] Set Warnings "-register-all".
#[local] Open Scope string_scope.

(** ** Exceptions and results *)

(** The exception classes the two modules raise or mention. The first
    group derives from [Exception]; [KeyboardInterrupt], [SystemExit] and
    [CancelledError] (Python 3.8 and later) derive from [BaseException]
    only, so that [except Exception] lets them through.
    [ConfigurationError] is imported from [xbotv5.exceptions], a framework
    exception and as such an [Exception]. *)
Inductive exn_class :=
| ValueError
| TypeError
| KeyError
| AttributeError
| RuntimeError
| ZeroDivisionError
| ConfigurationError
| KeyboardInterrupt
| SystemExit
| CancelledError.

Record exn := Exn { exn_cls : exn_class; exn_msg : string }.

(** [isinstance(e, Exception)] *)
Definition is_Exception (e : exn) : bool :=
  match exn_cls e with
  | KeyboardInterrupt | SystemExit | CancelledError => false
  | _ => true
  end.

(** [isinstance(e, (KeyboardInterrupt, SystemExit))] *)
Definition is_critical (e : exn) : bool :=
  match exn_cls e with
  | KeyboardInterrupt | SystemExit => true
  | _ => false
  end.

Inductive result (A : Type) :=
| Ok (a : A)
| Err (e : exn).
Arguments Ok {A} a.
Arguments Err {A} e.

#[global] Instance result_ret : MRet result := fun A a => Ok a.

#[global] Instance result_bind : MBind result := fun A B k r =>
  match r with
  | Ok a => k a
  | Err e => Err e
  end.

Definition raise {A} (c : exn_class) (m : string) : result A := Err (Exn c m).

(** ** Floats *)

Inductive pyfloat :=
| Fin (q : Q)
| PInf
| NInf
| NaN.

(** [a <= b]: every comparison with NaN is false. *)
Definition f_leb (a b : pyfloat) : bool :=
  match a, b with
  | NaN, _ | _, NaN => false
  | NInf, _ => true
  | _, PInf => true
  | Fin x, Fin y => Qle_bool x y
  | _, _ => false
  end.

(** [a < b] *)
Definition f_ltb (a b : pyfloat) : bool :=
  match a, b with
  | NaN, _ | _, NaN => false
  | NInf, NInf => false
  | NInf, _ => true
  | PInf, _ => false
  | Fin _, PInf => true
  | Fin _, NInf => false
  | Fin x, Fin y => negb (Qle_bool y x)
  end.

(** [a > b] *)
Definition f_gtb (a b : pyfloat) : bool := f_ltb b a.

(** [a + b] *)
Definition f_add (a b : pyfloat) : pyfloat :=
  match a, b with
  | NaN, _ | _, NaN => NaN
  | PInf, NInf | NInf, PInf => NaN
  | PInf, _ | _, PInf => PInf
  | NInf, _ | _, NInf => NInf
  | Fin x, Fin y => Fin (x + y)
  end.


(** [a / b] on Python [int]s: true division, [ZeroDivisionError] for a
    zero divisor. *)
Definition int_truediv (a b : Z) : result pyfloat :=
  match b with
  | Z0 => raise ZeroDivisionError "division by zero"
  | Zpos p => Ok (Fin (a # p))
  | Zneg p => Ok (Fin ((- a) # p))
  end.

Definition f_zero : pyfloat := Fin 0.
Definition f_one : pyfloat := Fin 1.

(** ** SignalType *)

Inductive SignalType := BUY | SELL | HOLD | CLOSE | STOP_LOSS | TAKE_PROFIT.

#[global] Instance SignalType_eq_dec : EqDecision SignalType.
Proof. solve_decision. Defined.

Definition SignalType_to_nat (t : SignalType) : nat :=
  match t with
  | BUY => 0 | SELL => 1 | HOLD => 2 | CLOSE => 3
  | STOP_LOSS => 4 | TAKE_PROFIT => 5
  end.

Definition SignalType_of_nat (n : nat) : SignalType :=
  match n with
  | 0 => BUY | 1 => SELL | 2 => HOLD | 3 => CLOSE
  | 4 => STOP_LOSS | _ => TAKE_PROFIT
  end.

#[global] Instance SignalType_countable : Countable SignalType.
Proof.
  apply (inj_countable' SignalType_to_nat SignalType_of_nat).
  intros []; reflexivity.
Defined.

(** The members in definition order. *)
Definition SignalType_members : list SignalType :=
  [BUY; SELL; HOLD; CLOSE; STOP_LOSS; TAKE_PROFIT].

(** [member.value] *)
Definition SignalType_value (t : SignalType) : string :=
  match t with
  | BUY => "buy"
  | SELL => "sell"
  | HOLD => "hold"
  | CLOSE => "close"
  | STOP_LOSS => "stop_loss"
  | TAKE_PROFIT => "take_profit"
  end.

(** ** Naive datetimes and their ISO-8601 text

    [datetime] is Python's standard-library class; the bot only creates
    naive instants ([datetime.utcnow()]). [isoformat] and [fromisoformat]
    follow the library's documented behaviour for naive values:
    [YYYY-MM-DDTHH:MM:SS], followed by [.ffffff] when the microsecond is
    not zero; the parser reads the date, any one separator character and
    [HH[:MM[:SS[.fff[fff]]]]]. Texts with a UTC offset denote aware
    datetimes and are outside the model. *)

Record datetime := Datetime {
  dt_year : N;
  dt_month : N;
  dt_day : N;
  dt_hour : N;
  dt_minute : N;
  dt_second : N;
  dt_microsecond : N
}.

#[local] Open Scope N_scope.

Definition is_leap (y : N) : bool :=
  ((y mod 4 =? 0) && negb (y mod 100 =? 0)) || (y mod 400 =? 0).

Definition days_in_month (y m : N) : N :=
  match m with
  | 2 => if is_leap y then 29 else 28
  | 4 | 6 | 9 | 11 => 30
  | _ => 31
  end.

(** The ranges the [datetime] constructor enforces. *)
Definition valid_datetime (t : datetime) : bool :=
  (1 <=? dt_year t) && (dt_year t <=? 9999) &&
  (1 <=? dt_month t) && (dt_month t <=? 12) &&
  (1 <=? dt_day t) && (dt_day t <=? days_in_month (dt_year t) (dt_month t)) &&
  (dt_hour t <? 24) && (dt_minute t <? 60) && (dt_second t <? 60) &&
  (dt_microsecond t <? 1000000).

Definition ascii_of_digit (d : N) : ascii := ascii_of_N (48 + d).

Definition digit_of_ascii (c : ascii) : option N :=
  let n := N_of_ascii c in
  if (48 <=? n) && (n <=? 57) then Some (n - 48) else None.

(** [n] in decimal, zero-padded (and truncated) to [w] digits. *)
Fixpoint zfill (w : nat) (n : N) : list ascii :=
  match w with
  | O => []
  | S w' => zfill w' (n / 10) ++ [ascii_of_digit (n mod 10)]
  end.

Fixpoint digits_val (acc : N) (l : list ascii) : option N :=
  match l with
  | [] => Some acc
  | c :: l' =>
      match digit_of_ascii c with
      | Some d => digits_val (10 * acc + d) l'
      | None => None
      end
  end.

Definition parse_digits (l : list ascii) : option N := digits_val 0 l.

Definition colon : ascii := ":"%char.
Definition dash : ascii := "-"%char.
Definition dot : ascii := "."%char.

(** [t.isoformat()] *)
Definition isoformat_chars (t : datetime) : list ascii :=
  zfill 4 (dt_year t) ++ dash :: zfill 2 (dt_month t) ++ dash ::
  zfill 2 (dt_day t) ++ "T"%char ::
  zfill 2 (dt_hour t) ++ colon :: zfill 2 (dt_minute t) ++ colon ::
  zfill 2 (dt_second t) ++
  (if dt_microsecond t =? 0 then [] else dot :: zfill 6 (dt_microsecond t)).

Definition isoformat (t : datetime) : string :=
  string_of_list_ascii (isoformat_chars t).

(** The fraction of a second: three or six digits after the dot. *)
Definition parse_fraction (l : list ascii) : option N :=
  match l with
  | [] => Some 0
  | d :: fs =>
      if Ascii.eqb d dot then
        match length fs with
        | 3%nat => f ← parse_digits fs; Some (f * 1000)
        | 6%nat => parse_digits fs
        | _ => None
        end
      else None
  end.

(** [HH[:MM[:SS[.fff[fff]]]]] to hour, minute, second, microsecond. *)
Definition parse_time (l : list ascii) : option (N * N * N * N) :=
  match l with
  | h1 :: h2 :: rest =>
      h ← parse_digits [h1; h2];
      match rest with
      | [] => Some (h, 0, 0, 0)
      | c1 :: m1 :: m2 :: rest' =>
          if Ascii.eqb c1 colon then
            m ← parse_digits [m1; m2];
            match rest' with
            | [] => Some (h, m, 0, 0)
            | c2 :: s1 :: s2 :: frac =>
                if Ascii.eqb c2 colon then
                  s ← parse_digits [s1; s2];
                  us ← parse_fraction frac;
                  Some (h, m, s, us)
                else None
            | _ => None
            end
          else None
      | _ => None
      end
  | _ => None
  end.

Definition parse_isoformat (l : list ascii) : option datetime :=
  match l with
  | y1 :: y2 :: y3 :: y4 :: c1 :: m1 :: m2 :: c2 :: d1 :: d2 :: rest =>
      if Ascii.eqb c1 dash && Ascii.eqb c2 dash then
        y ← parse_digits [y1; y2; y3; y4];
        m ← parse_digits [m1; m2];
        d ← parse_digits [d1; d2];
        '(h, mi, s, us) ← match rest with
                          | [] => Some (0, 0, 0, 0)
                          | _sep :: time => parse_time time
                          end;
        let t := Datetime y m d h mi s us in
        if valid_datetime t then Some t else None
      else None
  | _ => None
  end.

#[local] Close Scope N_scope.

(** [datetime.fromisoformat(s)] *)
Definition fromisoformat (s : string) : result datetime :=
  match parse_isoformat (list_ascii_of_string s) with
  | Some t => Ok t
  | None => raise ValueError "Invalid isoformat string"
  end.

Example isoformat_example :
  isoformat (Datetime 2024 3 9 7 5 0 0) = "2024-03-09T07:05:00"
  ∧ isoformat (Datetime 2024 3 9 7 5 0 1500) = "2024-03-09T07:05:00.001500"
  ∧ fromisoformat "2024-03-09 07:05:00.250" = Ok (Datetime 2024 3 9 7 5 0 250000)
  ∧ fromisoformat "2023-02-29T00:00:00" = raise ValueError "Invalid isoformat string"
  ∧ fromisoformat "2024-02-29" = Ok (Datetime 2024 2 29 0 0 0 0).
Proof. repeat split; reflexivity. Qed.

(** ** Dynamic values

    The values a serialised signal holds ([Dict[str, Any]]): [None],
    booleans, numbers, strings, lists and string-keyed dictionaries. *)

Inductive pyval :=
| VNone
| VBool (b : bool)
| VNum (x : pyfloat)
| VStr (s : string)
| VList (l : list pyval)
| VDict (d : gmap string pyval).

(** [bool(v)] *)
Definition truthy (v : pyval) : bool :=
  match v with
  | VNone => false
  | VBool b => b
  | VNum (Fin q) => negb (Qeq_bool q 0)
  | VNum _ => true
  | VStr s => negb (String.eqb s "")
  | VList l => negb (Nat.eqb (length l) 0)
  | VDict d => negb (Nat.eqb (size d) 0)
  end.

(** [d[k]] *)
Definition getitem (d : gmap string pyval) (k : string) : result pyval :=
  match d !! k with
  | Some v => Ok v
  | None => raise KeyError k
  end.

(** [SignalType(v)]: the member whose value is [v]. *)
Definition SignalType_call (v : pyval) : result SignalType :=
  match v with
  | VStr s =>
      match find (fun t => String.eqb (SignalType_value t) s) SignalType_members with
      | Some t => Ok t
      | None => raise ValueError ("'" ++ s ++ "' is not a valid SignalType")
      end
  | _ => raise ValueError "not a valid SignalType"
  end.

(** ** Signal *)

Record Signal := mkSignal {
  type : SignalType;
  symbol : string;
  confidence : pyfloat;
  price : option pyfloat;
  quantity : option pyfloat;
  stop_loss : option pyfloat;
  take_profit : option pyfloat;
  metadata : gmap string pyval;
  timestamp : datetime;
  source : string
}.

(** The arguments of the generated [__init__]: [metadata] and [timestamp]
    may be [None]. *)
Record SignalArgs := mkArgs {
  a_type : SignalType;
  a_symbol : string;
  a_confidence : pyfloat;
  a_price : option pyfloat;
  a_quantity : option pyfloat;
  a_stop_loss : option pyfloat;
  a_take_profit : option pyfloat;
  a_metadata : option (gmap string pyval);
  a_timestamp : option datetime;
  a_source : string
}.

(** The declared defaults: [Signal(type, symbol)]. *)
Definition default_args (t : SignalType) (sym : string) : SignalArgs :=
  mkArgs t sym f_one None None None None None None "unknown".

(** [Signal(...)]: field assignment followed by [__post_init__].
    [utcnow] is what [datetime.utcnow()] returns at the call. *)
Definition post_init (utcnow : datetime) (a : SignalArgs) : result Signal :=
  let metadata := match a_metadata a with None => ∅ | Some m => m end in
  let timestamp := match a_timestamp a with None => utcnow | Some t => t end in
  if negb (f_leb f_zero (a_confidence a) && f_leb (a_confidence a) f_one)
  then raise ValueError "Confidence must be between 0.0 and 1.0"
  else Ok (mkSignal (a_type a) (a_symbol a) (a_confidence a) (a_price a)
             (a_quantity a) (a_stop_loss a) (a_take_profit a)
             metadata timestamp (a_source a)).

(** The class methods [buy], [sell], [hold], [close] with no further
    keyword. *)
Definition Signal_buy (utcnow : datetime) (sym : string) := post_init utcnow (default_args BUY sym).
Definition Signal_sell (utcnow : datetime) (sym : string) := post_init utcnow (default_args SELL sym).
Definition Signal_hold (utcnow : datetime) (sym : string) := post_init utcnow (default_args HOLD sym).
Definition Signal_close (utcnow : datetime) (sym : string) := post_init utcnow (default_args CLOSE sym).

Definition is_actionable (s : Signal) : bool :=
  negb (bool_decide (type s = HOLD)).

Definition is_entry_signal (s : Signal) : bool :=
  bool_decide (type s = BUY).

Definition exit_types : gset SignalType :=
  {[ SELL; CLOSE; STOP_LOSS; TAKE_PROFIT ]}.

Definition is_exit_signal (s : Signal) : bool :=
  bool_decide (type s ∈ exit_types).




(** The parameters of the generated [__init__]. *)
Definition field_names : list string :=
  ["type"; "symbol"; "confidence"; "price"; "quantity"; "stop_loss";
   "take_profit"; "metadata"; "timestamp"; "source"].

(** Binding a keyword argument to a typed field. A dataclass does not
    check the annotations: a value of another type would be stored as it
    is. Such signals are outside the typed record, and the embedding
    answers [TypeError] for them. *)
Definition bad_type {A} (k : string) : result A :=
  raise TypeError ("unexpected type for " ++ k).

Definition kw_opt_float (d : gmap string pyval) (k : string) : result (option pyfloat) :=
  match d !! k with
  | None | Some VNone => Ok None
  | Some (VNum x) => Ok (Some x)
  | Some _ => bad_type k
  end.

Definition kw_symbol (d : gmap string pyval) : result string :=
  match d !! "symbol" with
  | None => raise TypeError "missing required argument: 'symbol'"
  | Some (VStr s) => Ok s
  | Some _ => bad_type "symbol"
  end.

Definition kw_confidence (d : gmap string pyval) : result pyfloat :=
  match d !! "confidence" with
  | None => Ok f_one
  | Some (VNum x) => Ok x
  | Some _ => bad_type "confidence"
  end.

Definition kw_metadata (d : gmap string pyval) : result (option (gmap string pyval)) :=
  match d !! "metadata" with
  | None | Some VNone => Ok None
  | Some (VDict m) => Ok (Some m)
  | Some _ => bad_type "metadata"
  end.

Definition kw_source (d : gmap string pyval) : result string :=
  match d !! "source" with
  | None => Ok "unknown"
  | Some (VStr s) => Ok s
  | Some _ => bad_type "source"
  end.

Definition check_keywords (d : gmap string pyval) : result unit :=
  if bool_decide (dom d ⊆ list_to_set field_names)
  then Ok tt
  else raise TypeError "unexpected keyword argument".

(** [if data.get("timestamp"): signal_data["timestamp"] =
    datetime.fromisoformat(data["timestamp"])] *)
Definition decode_timestamp (d : gmap string pyval) : result (option datetime) :=
  match d !! "timestamp" with
  | None => Ok None
  | Some v =>
      if truthy v then
        match v with
        | VStr s => t ← fromisoformat s; Ok (Some t)
        | _ => raise TypeError "fromisoformat: argument must be str"
        end
      else
        match v with
        | VNone => Ok None
        | _ => bad_type "timestamp"
        end
  end.

Definition from_dict (utcnow : datetime) (data : gmap string pyval) : result Signal :=
  tag ← getitem data "type";
  ty ← SignalType_call tag;
  ts ← decode_timestamp data;
  _ ← check_keywords data;
  sym ← kw_symbol data;
  conf ← kw_confidence data;
  p ← kw_opt_float data "price";
  q ← kw_opt_float data "quantity";
  sl ← kw_opt_float data "stop_loss";
  tp ← kw_opt_float data "take_profit";
  md ← kw_metadata data;
  src ← kw_source data;
  post_init utcnow (mkArgs ty sym conf p q sl tp md ts src).

Example from_dict_minimal :
  from_dict (Datetime 2024 1 1 0 0 0 0)
    (list_to_map [("type", VStr "sell"); ("symbol", VStr "BTC/USDT")])
  = Ok (mkSignal SELL "BTC/USDT" f_one None None None None ∅
          (Datetime 2024 1 1 0 0 0 0) "unknown").
Proof. reflexivity. Qed.

Example is_exit_signal_example :
  is_exit_signal (mkSignal SELL "X" f_one None None None None ∅
          (Datetime 2024 1 1 0 0 0 0) "unknown") = true.
Proof. reflexivity. Qed.

(** ** The bot's collaborators

    [Position], [Order], [Event], [EventBus] and [Logger] are imported by
    [bot.py] from modules of the framework. *)

(** Modelled from the spec: [Position] ([xbotv5.core.position]); "this
    core only reads [Position.symbol], [Position.pnl]". A position object
    is true in a condition, as every object without [__bool__] is. *)
Record Position := mkPosition { pos_symbol : string; pos_pnl : pyfloat }.

(** Modelled from the spec: [Order] ([xbotv5.core.order]), "an opaque
    payload forwarded to [on_order_filled]". *)
Record Order := mkOrder { order_id : string }.

(** What the bot stores under a key of an event's [data]. *)
Inductive data_val :=
| DBot
| DError (e : exn)
| DOrder (o : Order)
| DPosition (p : Position).

(** Modelled from the spec: [Event] ([xbotv5.events]), a name and a
    [data] dictionary. *)
Record Event := mkEvent { ev_name : string; ev_data : gmap string data_val }.

(** ** Bot *)

Record Bot (U : Type) := mkBot {
  name : string;
  version : string;
  description : string;
  author : string;
  pairs : list string;
  timeframe : string;
  exchange : option string;
  _running : bool;
  _initialized : bool;
  _start_time : option datetime;
  positions : gmap string Position;
  orders : gmap string Order;
  total_trades : Z;
  winning_trades : Z;
  losing_trades : Z;
  total_pnl : pyfloat;
  attrs : U
}.
Arguments mkBot {U}.
Arguments name {U}.
Arguments version {U}.
Arguments description {U}.
Arguments author {U}.
Arguments pairs {U}.
Arguments timeframe {U}.
Arguments exchange {U}.
Arguments _running {U}.
Arguments _initialized {U}.
Arguments _start_time {U}.
Arguments positions {U}.
Arguments orders {U}.
Arguments total_trades {U}.
Arguments winning_trades {U}.
Arguments losing_trades {U}.
Arguments total_pnl {U}.
Arguments attrs {U}.

(** [Bot.__init__]; [u] holds the attributes of the subclass. *)
Definition Bot_init {U} (u : U) : Bot U :=
  mkBot "Unnamed Bot" "1.0.0" "A trading bot built with xBotV5" "Unknown"
    [] "1h" None false false None ∅ ∅ 0 0 0 f_zero u.

Definition set_running {U} (v : bool) (b : Bot U) : Bot U :=
  mkBot (name b) (version b) (description b) (author b) (pairs b)
    (timeframe b) (exchange b) v (_initialized b) (_start_time b)
    (positions b) (orders b) (total_trades b) (winning_trades b)
    (losing_trades b) (total_pnl b) (attrs b).

Definition set_initialized {U} (v : bool) (b : Bot U) : Bot U :=
  mkBot (name b) (version b) (description b) (author b) (pairs b)
    (timeframe b) (exchange b) (_running b) v (_start_time b)
    (positions b) (orders b) (total_trades b) (winning_trades b)
    (losing_trades b) (total_pnl b) (attrs b).

Definition set_start_time {U} (v : option datetime) (b : Bot U) : Bot U :=
  mkBot (name b) (version b) (description b) (author b) (pairs b)
    (timeframe b) (exchange b) (_running b) (_initialized b) v
    (positions b) (orders b) (total_trades b) (winning_trades b)
    (losing_trades b) (total_pnl b) (attrs b).

Definition set_positions {U} (v : gmap string Position) (b : Bot U) : Bot U :=
  mkBot (name b) (version b) (description b) (author b) (pairs b)
    (timeframe b) (exchange b) (_running b) (_initialized b) (_start_time b)
    v (orders b) (total_trades b) (winning_trades b)
    (losing_trades b) (total_pnl b) (attrs b).

Definition set_total_trades {U} (v : Z) (b : Bot U) : Bot U :=
  mkBot (name b) (version b) (description b) (author b) (pairs b)
    (timeframe b) (exchange b) (_running b) (_initialized b) (_start_time b)
    (positions b) (orders b) v (winning_trades b)
    (losing_trades b) (total_pnl b) (attrs b).

Definition set_winning_trades {U} (v : Z) (b : Bot U) : Bot U :=
  mkBot (name b) (version b) (description b) (author b) (pairs b)
    (timeframe b) (exchange b) (_running b) (_initialized b) (_start_time b)
    (positions b) (orders b) (total_trades b) v
    (losing_trades b) (total_pnl b) (attrs b).

Definition set_losing_trades {U} (v : Z) (b : Bot U) : Bot U :=
  mkBot (name b) (version b) (description b) (author b) (pairs b)
    (timeframe b) (exchange b) (_running b) (_initialized b) (_start_time b)
    (positions b) (orders b) (total_trades b) (winning_trades b)
    v (total_pnl b) (attrs b).

Definition set_total_pnl {U} (v : pyfloat) (b : Bot U) : Bot U :=
  mkBot (name b) (version b) (description b) (author b) (pairs b)
    (timeframe b) (exchange b) (_running b) (_initialized b) (_start_time b)
    (positions b) (orders b) (total_trades b) (winning_trades b)
    (losing_trades b) v (attrs b).

Definition set_name {U} (v : string) (b : Bot U) : Bot U :=
  mkBot v (version b) (description b) (author b) (pairs b)
    (timeframe b) (exchange b) (_running b) (_initialized b) (_start_time b)
    (positions b) (orders b) (total_trades b) (winning_trades b)
    (losing_trades b) (total_pnl b) (attrs b).

Definition set_pairs {U} (v : list string) (b : Bot U) : Bot U :=
  mkBot (name b) (version b) (description b) (author b) v
    (timeframe b) (exchange b) (_running b) (_initialized b) (_start_time b)
    (positions b) (orders b) (total_trades b) (winning_trades b)
    (losing_trades b) (total_pnl b) (attrs b).

Definition set_timeframe {U} (v : string) (b : Bot U) : Bot U :=
  mkBot (name b) (version b) (description b) (author b) (pairs b)
    v (exchange b) (_running b) (_initialized b) (_start_time b)
    (positions b) (orders b) (total_trades b) (winning_trades b)
    (losing_trades b) (total_pnl b) (attrs b).

Definition set_attrs {U} (v : U) (b : Bot U) : Bot U :=
  mkBot (name b) (version b) (description b) (author b) (pairs b)
    (timeframe b) (exchange b) (_running b) (_initialized b) (_start_time b)
    (positions b) (orders b) (total_trades b) (winning_trades b)
    (losing_trades b) (total_pnl b) v.

(** *** What a run leaves behind *)

Inductive hook :=
| h_setup
| h_on_start
| h_process_market_data
| h_sleep
| h_on_order_filled
| h_on_error
| h_on_stop.

#[global] Instance hook_eq_dec : EqDecision hook.
Proof. solve_decision. Defined.

Inductive level := INFO | ERROR.

(** One effect on a collaborator: a hook was called (and raised or not),
    a line was logged, an event was handed to the bus. *)
Inductive obs :=
| Called (h : hook) (raised : option exn)
| Logged (l : level) (m : string)
| Emitted (ev : Event).

Record St (U : Type) := mkSt { bot : Bot U; trace : list obs }.
Arguments mkSt {U}.
Arguments bot {U}.
Arguments trace {U}.

(** A method of the bot: from a state, either it does not finish ([None],
    the loop is still running when the fuel is spent) or it returns or
    raises, in a new state. *)
Definition M (U A : Type) : Type := St U → option (result A * St U).

Definition ret {U A} (a : A) : M U A := fun st => Some (Ok a, st).

Definition throw {U A} (e : exn) : M U A := fun st => Some (Err e, st).

Definition bind {U A B} (m : M U A) (k : A → M U B) : M U B := fun st =>
  match m st with
  | None => None
  | Some (Ok a, st') => k a st'
  | Some (Err e, st') => Some (Err e, st')
  end.

Notation "x <- m ;; k" := (bind m (fun x => k))
  (at level 20, m at level 99, k at level 200, only parsing).
Notation "m ;; k" := (bind m (fun _ => k))
  (at level 100, k at level 200, right associativity, only parsing).

(** [try: body except Exception as e: handler e] *)
Definition try_except {U A} (body : M U A) (handler : exn → M U A) : M U A :=
  fun st =>
    match body st with
    | Some (Err e, st') =>
        if is_Exception e then handler e st' else Some (Err e, st')
    | r => r
    end.

(** [try: body finally: fin]: [fin] runs however [body] ends; what [body]
    returned or raised stands unless [fin] raises. *)
Definition try_finally {U A} (body : M U A) (fin : M U unit) : M U A :=
  fun st =>
    match body st with
    | None => None
    | Some (r, st') =>
        match fin st' with
        | None => None
        | Some (Ok _, st'') => Some (r, st'')
        | Some (Err e, st'') => Some (Err e, st'')
        end
    end.

Definition get_bot {U} : M U (Bot U) := fun st => Some (Ok (bot st), st).

Definition modify {U} (f : Bot U → Bot U) : M U unit := fun st =>
  Some (Ok tt, mkSt (f (bot st)) (trace st)).

Definition record {U} (o : obs) : M U unit := fun st =>
  Some (Ok tt, mkSt (bot st) (trace st ++ [o])).

(** Modelled from the spec: [Logger], which "accepts leveled text
    messages ([info], [error])". *)
Definition log {U} (l : level) (m : string) : M U unit := record (Logged l m).

(** A call of user code: it may change the bot and may raise. *)
Definition call {U} (h : hook) (f : Bot U → Bot U * option exn) : M U unit :=
  fun st =>
    let '(b', r) := f (bot st) in
    Some (match r with None => Ok tt | Some e => Err e end,
          mkSt b' (trace st ++ [Called h r])).

(** The methods a concrete bot supplies. [_process_market_data] can be
    overridden as any method can; [env_sleep] is what the other tasks do
    to the bot while the loop is suspended in [asyncio.sleep(0.1)]
    (clearing the run flag as [stop()] does, cancelling the task). A hook
    acts on the attributes of the bot and may raise; hooks that publish
    events themselves or call other hooks are not modelled. *)
Record Hooks (U : Type) := mkHooks {
  setup : Bot U → Bot U * option exn;
  on_start : Bot U → Bot U * option exn;
  on_order_filled : Order → Bot U → Bot U * option exn;
  on_error : exn → Bot U → Bot U * option exn;
  on_stop : Bot U → Bot U * option exn;
  _process_market_data : Bot U → Bot U * option exn;
  env_sleep : Bot U → Bot U * option exn
}.
Arguments mkHooks {U}.
Arguments setup {U}.
Arguments on_start {U}.
Arguments on_order_filled {U}.
Arguments on_error {U}.
Arguments on_stop {U}.
Arguments _process_market_data {U}.
Arguments env_sleep {U}.

(** The body of [Bot._process_market_data]: [pass]. *)
Definition default_process_market_data {U} (b : Bot U) : Bot U * option exn :=
  (b, None).

Inductive ctl := Continue | Break.

Section BotMethods.
Context {U : Type}.
(** The concrete bot. *)
Variable hk : Hooks U.
(** The specification says of [EventBus.emit] that it "invokes all
    registered handlers"; whether an exception raised by a handler
    reaches the caller of [emit] is left open, and is a parameter. *)
Variable bus_propagates : bool.

Definition _handle_order_filled (event : Event) : M U unit :=
  match ev_data event !! "order" with
  | None => ret tt
  | Some (DOrder order) =>
      call h_on_order_filled (on_order_filled hk order) ;;
      modify (fun b => set_total_trades (total_trades b + 1) b)
  | Some _ => throw (Exn TypeError "order_filled: not an order")
  end.

Definition _handle_position_opened (event : Event) : M U unit :=
  match ev_data event !! "position" with
  | None => ret tt
  | Some (DPosition position) =>
      modify (fun b =>
        set_positions (<[pos_symbol position := position]> (positions b)) b) ;;
      log INFO ("Position opened: " ++ pos_symbol position)
  | Some _ => throw (Exn AttributeError "symbol")
  end.

Definition _handle_position_closed (event : Event) : M U unit :=
  match ev_data event !! "position" with
  | None => ret tt
  | Some (DPosition position) =>
      (if f_gtb (pos_pnl position) f_zero
       then modify (fun b => set_winning_trades (winning_trades b + 1) b)
       else modify (fun b => set_losing_trades (losing_trades b + 1) b)) ;;
      modify (fun b => set_total_pnl (f_add (total_pnl b) (pos_pnl position)) b) ;;
      b <- get_bot ;;
      (if bool_decide (pos_symbol position ∈ dom (positions b))
       then modify (set_positions (delete (pos_symbol position) (positions b)))
       else ret tt) ;;
      log INFO ("Position closed: " ++ pos_symbol position)
  | Some _ => throw (Exn AttributeError "pnl")
  end.

Definition _handle_error (event : Event) : M U unit :=
  match ev_data event !! "error" with
  | None => ret tt
  | Some (DError error) => call h_on_error (on_error hk error)
  | Some _ => throw (Exn TypeError "error: not an exception")
  end.

(** The subscriptions [_setup_event_handlers] makes. *)
Definition _setup_event_handlers : list (string * (Event → M U unit)) :=
  [("order_filled", _handle_order_filled);
   ("position_opened", _handle_position_opened);
   ("position_closed", _handle_position_closed);
   ("error", _handle_error)].

Fixpoint run_handlers (hs : list (Event → M U unit)) (event : Event) : M U unit :=
  match hs with
  | [] => ret tt
  | h :: hs' => fun st =>
      match h event st with
      | None => None
      | Some (Ok _, st') => run_handlers hs' event st'
      | Some (Err e, st') =>
          if bus_propagates then Some (Err e, st')
          else run_handlers hs' event st'
      end
  end.

(** Modelled from the spec: [EventBus.emit], "[emit(name, payload)]
    invokes all registered handlers for [name], awaiting asynchronous
    handlers before returning". *)
Definition emit (name : string) (data : gmap string data_val) : M U unit :=
  let event := mkEvent name data in
  record (Emitted event) ;;
  run_handlers
    (List.map snd
       (List.filter (fun h => String.eqb (fst h) name) _setup_event_handlers))
    event.

Definition _validate_config : M U unit :=
  b <- get_bot ;;
  if String.eqb (name b) "" then
    throw (Exn ConfigurationError "Bot name is required")
  else if Nat.eqb (length (pairs b)) 0 then
    throw (Exn ConfigurationError "At least one trading pair is required")
  else if String.eqb (timeframe b) "" then
    throw (Exn ConfigurationError "Timeframe is required")
  else ret tt.

Definition initialize : M U unit :=
  b <- get_bot ;;
  if _initialized b then ret tt
  else
    try_except
      (call h_setup (setup hk) ;;
       _validate_config ;;
       modify (set_initialized true) ;;
       b' <- get_bot ;;
       log INFO ("Bot " ++ name b' ++ " v" ++ version b' ++ " initialized"))
      (fun e =>
         log ERROR ("Failed to initialize bot: " ++ exn_msg e) ;;
         throw (Exn ConfigurationError
                  ("Bot initialization failed: " ++ exn_msg e))).

Definition stop : M U unit :=
  b <- get_bot ;;
  log INFO ("Stopping bot " ++ name b) ;;
  modify (set_running false).

Definition _cleanup : M U unit :=
  try_except
    (call h_on_stop (on_stop hk) ;;
     emit "bot_stopped" {["bot" := DBot]} ;;
     b <- get_bot ;;
     log INFO ("Bot " ++ name b ++ " stopped"))
    (fun e => log ERROR ("Error during cleanup: " ++ exn_msg e)).

(** One pass through the body of [while self._running]. *)
Definition iteration : M U ctl :=
  try_except
    (call h_process_market_data (_process_market_data hk) ;;
     call h_sleep (env_sleep hk) ;;
     ret Continue)
    (fun e =>
       log ERROR ("Error in trading loop: " ++ exn_msg e) ;;
       emit "error" {["error" := DError e]} ;;
       if is_critical e then ret Break else ret Continue).

(** [while self._running: ...]; [fuel] bounds the number of passes. *)
Fixpoint loop (fuel : nat) : M U unit := fun st =>
  if _running (bot st) then
    match fuel with
    | O => None
    | S fuel' =>
        match iteration st with
        | None => None
        | Some (Ok Continue, st') => loop fuel' st'
        | Some (Ok Break, st') => Some (Ok tt, st')
        | Some (Err e, st') => Some (Err e, st')
        end
    end
  else Some (Ok tt, st).

(** The body of the outer [try] of [run]. *)
Definition run_body (fuel : nat) : M U unit :=
  call h_on_start (on_start hk) ;;
  emit "bot_started" {["bot" := DBot]} ;;
  loop fuel.

(** The [try] ... [except] ... [finally] statement of [run]. *)
Definition run_guarded (fuel : nat) : M U unit :=
  try_finally
    (try_except
       (run_body fuel)
       (fun e =>
          log ERROR ("Fatal error in bot: " ++ exn_msg e) ;;
          emit "error" {["error" := DError e]}))
    _cleanup.

(** The statements of [run] before its [try]; [utcnow] is what
    [datetime.utcnow()] returns. *)
Definition run_prologue (utcnow : datetime) : M U unit :=
  b <- get_bot ;;
  (if negb (_initialized b) then initialize else ret tt) ;;
  modify (set_running true) ;;
  modify (set_start_time (Some utcnow)) ;;
  b' <- get_bot ;;
  log INFO ("Starting bot " ++ name b').

Definition run (utcnow : datetime) (fuel : nat) : M U unit :=
  run_prologue utcnow ;;
  run_guarded fuel.

End BotMethods.

Definition has_position {U} (b : Bot U) (symbol : option string) : bool :=
  match symbol with
  | Some s =>
      if negb (String.eqb s "") then bool_decide (s ∈ dom (positions b))
      else negb (Nat.eqb (size (positions b)) 0)
  | None => negb (Nat.eqb (size (positions b)) 0)
  end.

Definition get_position {U} (b : Bot U) (symbol : string) : option Position :=
  positions b !! symbol.

Definition is_running {U} (b : Bot U) : bool := _running b.


(** How often a hook was called, and an event of a name handed to the
    bus, in a trace. *)
Definition is_call (h : hook) (o : obs) : bool :=
  match o with
  | Called h' _ => bool_decide (h' = h)
  | _ => false
  end.

Definition is_emit (name : string) (o : obs) : bool :=
  match o with
  | Emitted ev => String.eqb (ev_name ev) name
  | _ => false
  end.

Definition calls (h : hook) (tr : list obs) : nat :=
  length (List.filter (is_call h) tr).

Definition emits (name : string) (tr : list obs) : nat :=
  length (List.filter (is_emit name) tr).

(** ** The class methods of Signal with their keywords

    [Signal.buy(symbol, **kwargs)] and its siblings call
    [cls(type=..., symbol=symbol, **kwargs)]. A keyword value is an object
    of one of the types the fields are annotated with. *)

Inductive kwval :=
| KNone
| KNum (x : pyfloat)
| KStr (s : string)
| KDict (d : gmap string pyval)
| KDatetime (t : datetime)
| KType (t : SignalType).

Definition kwarg_opt_float (kw : gmap string kwval) (k : string) : result (option pyfloat) :=
  match kw !! k with
  | None | Some KNone => Ok None
  | Some (KNum x) => Ok (Some x)
  | Some _ => bad_type k
  end.

(** The confidence is compared with floats in [__post_init__]: anything
    but a number makes the comparison raise [TypeError]. *)
Definition kwarg_confidence (kw : gmap string kwval) : result pyfloat :=
  match kw !! "confidence" with
  | None => Ok f_one
  | Some (KNum x) => Ok x
  | Some _ => raise TypeError "'<=' not supported"
  end.

Definition kwarg_metadata (kw : gmap string kwval) : result (option (gmap string pyval)) :=
  match kw !! "metadata" with
  | None | Some KNone => Ok None
  | Some (KDict m) => Ok (Some m)
  | Some _ => bad_type "metadata"
  end.

Definition kwarg_timestamp (kw : gmap string kwval) : result (option datetime) :=
  match kw !! "timestamp" with
  | None | Some KNone => Ok None
  | Some (KDatetime t) => Ok (Some t)
  | Some _ => bad_type "timestamp"
  end.

Definition kwarg_source (kw : gmap string kwval) : result string :=
  match kw !! "source" with
  | None => Ok "unknown"
  | Some (KStr s) => Ok s
  | Some _ => bad_type "source"
  end.

(** [cls(type=t, symbol=sym, **kwargs)]: a keyword given twice or not a
    parameter of [__init__] is a [TypeError]. *)
Definition Signal_with (t : SignalType) (utcnow : datetime) (sym : string)
    (kwargs : gmap string kwval) : result Signal :=
  if bool_decide ("type" ∈ dom kwargs) then
    raise TypeError "got multiple values for keyword argument 'type'"
  else if bool_decide ("symbol" ∈ dom kwargs) then
    raise TypeError "got multiple values for argument 'symbol'"
  else if negb (bool_decide (dom kwargs ⊆ list_to_set field_names)) then
    raise TypeError "unexpected keyword argument"
  else
    conf ← kwarg_confidence kwargs;
    p ← kwarg_opt_float kwargs "price";
    q ← kwarg_opt_float kwargs "quantity";
    sl ← kwarg_opt_float kwargs "stop_loss";
    tp ← kwarg_opt_float kwargs "take_profit";
    md ← kwarg_metadata kwargs;
    ts ← kwarg_timestamp kwargs;
    src ← kwarg_source kwargs;
    post_init utcnow (mkArgs t sym conf p q sl tp md ts src).

Module classmethods.
Definition buy := Signal_with BUY.
Definition sell := Signal_with SELL.
Definition hold := Signal_with HOLD.
Definition close := Signal_with CLOSE.
End classmethods.

Example classmethod_example :
  classmethods.buy (Datetime 2024 1 1 0 0 0 0) "BTC/USDT"
    {["confidence" := KNum (Fin (85 # 100)); "price" := KNum (Fin 45000)]}
  = Ok (mkSignal BUY "BTC/USDT" (Fin (85 # 100)) (Some (Fin 45000)) None None None ∅
          (Datetime 2024 1 1 0 0 0 0) "unknown")
  ∧ classmethods.sell (Datetime 2024 1 1 0 0 0 0) "BTC/USDT" {["type" := KType BUY]}
    = raise TypeError "got multiple values for keyword argument 'type'".
Proof. split; reflexivity. Qed.

(** ** Sequences of events *)

(** The event the bot receives when [p] is closed, and when it is opened. *)
Definition closed_event (p : Position) : Event :=
  mkEvent "position_closed" {["position" := DPosition p]}.

Definition opened_event (p : Position) : Event :=
  mkEvent "position_opened" {["position" := DPosition p]}.




(** ** Hooks that leave the running flag alone *)

Definition hook_keeps_running {U} (f : Bot U → Bot U * option exn) : Prop :=
  ∀ b, _running (fst (f b)) = _running b.

(** No hook called during [run] calls [stop()] or writes the flag. *)
Definition hooks_keep_running {U} (hk : Hooks U) : Prop :=
  hook_keeps_running (on_start hk)
  ∧ (∀ o, hook_keeps_running (on_order_filled hk o))
  ∧ (∀ e, hook_keeps_running (on_error hk e))
  ∧ hook_keeps_running (on_stop hk)
  ∧ hook_keeps_running (_process_market_data hk)
  ∧ hook_keeps_running (env_sleep hk).

(** A method that, when it finishes, has left the running flag as it
    was. *)
Definition steady {U A} (m : M U A) : Prop :=
  ∀ st x st', m st = Some (x, st') → _running (bot st') = _running (bot st).

(** ** Vocabulary of the statements *)

(** The six values of [SignalType]. *)
Definition known_tags : list string :=
  ["buy"; "sell"; "hold"; "close"; "stop_loss"; "take_profit"].

(** An effect other than a call of [on_stop] or a [bot_stopped] event. *)
Definition other (o : obs) : Prop :=
  is_call h_on_stop o = false ∧ is_emit "bot_stopped" o = false.

(** A method that, when it finishes, has only added such effects. *)
Definition quiet {U A} (m : M U A) : Prop :=
  ∀ st x st', m st = Some (x, st') →
    ∃ tl, trace st' = (trace st ++ tl)%list ∧ Forall other tl.

(** A method that always finishes. *)
Definition total {U A} (m : M U A) : Prop :=
  ∀ st, ∃ x st', m st = Some (x, st').

(** ** Concrete bots

    Bots used to run the model: the subclass state is a counter of the
    passes left before another task calls [stop()]. *)
Module Examples.

(** A hook that does nothing. *)
Definition noop (b : Bot nat) : Bot nat * option exn := (b, None).

(** [setup] as in the scenario of the specification. *)
Definition setup_X (b : Bot nat) : Bot nat * option exn :=
  (set_timeframe "1h" (set_pairs ["BTC/USDT"] (set_name "X" b)), None).

(** A [setup] that leaves [pairs] empty. *)
Definition setup_no_pairs (b : Bot nat) : Bot nat * option exn :=
  (set_pairs [] (set_name "X" b), None).

(** During the sleep the counter goes down; at zero [stop()] is called. *)
Definition sleep_countdown (b : Bot nat) : Bot nat * option exn :=
  match attrs b with
  | O => (set_running false b, None)
  | S n => (set_attrs n b, None)
  end.

Definition failing (e : exn) (b : Bot nat) : Bot nat * option exn :=
  (b, Some e).

Definition bot0 (n : nat) : Bot nat := Bot_init n.

Definition st0 (n : nat) : St nat := mkSt (bot0 n) [].

Definition t0 : datetime := Datetime 2024 1 1 0 0 0 0.

(** The state at the [try] of [run]: initialised by [setup_X], running. *)
Definition running (n : nat) : St nat :=
  mkSt (set_start_time (Some t0)
          (set_running true (set_initialized true (fst (setup_X (bot0 n))))))
       [].

(** The state [run] is in when it enters its [try], for a bot that
    [setup_X] configures. *)
Definition started (n : nat) : St nat :=
  mkSt (bot (running n))
    [Called h_setup None; Logged INFO "Bot X v1.0.0 initialized";
     Logged INFO "Starting bot X"].

(** A well-behaved bot. *)
Definition good : Hooks nat :=
  mkHooks setup_X noop (fun _ => noop) (fun _ => noop) noop
    default_process_market_data sleep_countdown.

(** Its [on_stop] raises. *)
Definition bad_stop : Hooks nat :=
  mkHooks setup_X noop (fun _ => noop) (fun _ => noop)
    (failing (Exn RuntimeError "disconnect failed"))
    default_process_market_data sleep_countdown.




Definition no_pairs : Hooks nat :=
  mkHooks setup_no_pairs noop (fun _ => noop) (fun _ => noop) noop
    default_process_market_data sleep_countdown.

(** Its [on_start] raises, and nothing ever stops it. *)
Definition unstoppable : Hooks nat :=
  mkHooks setup_X (failing (Exn RuntimeError "no connection")) (fun _ => noop)
    (fun _ => noop) noop default_process_market_data noop.

(** Its [on_start] raises. *)
Definition bad_start : Hooks nat :=
  mkHooks setup_X (failing (Exn RuntimeError "no connection")) (fun _ => noop)
    (fun _ => noop) noop default_process_market_data sleep_countdown.

End Examples.

(** * Properties *)

(** ** ISO-8601 text of a datetime *)

Section Iso.
#[local] Open Scope N_scope.





Lemma length_zfill (w : nat) (n : N) : length (zfill w n) = w.
Proof.
  revert n. induction w as [| w IH]; intros n; [reflexivity |].
  cbn [zfill]. rewrite length_app, IH. simpl. lia.
Qed.







End Iso.

(** ** Signal *)

(** Membership of a concrete element in a concrete list, as a goal or as
    a hypothesis [H]. *)
Ltac solve_mem :=
  match goal with
  | |- _ = _ => first [reflexivity | exfalso]
  | _ => idtac
  end;
  match goal with
  | |- _ ∈ _ => first
      [ apply (bool_decide_unpack _); vm_compute; exact I
      | exfalso ]
  | _ => idtac
  end;
  match goal with
  | |- False =>
      match goal with
      | H : _ ∈ _ |- _ =>
          apply (bool_decide_pack _) in H; vm_compute in H; destruct H
      | H : _ = _ |- _ => vm_compute in H; discriminate H
      end
  | _ => idtac
  end.

Section SignalProperties.


Lemma SignalType_call_value (t : SignalType) :
  SignalType_call (VStr (SignalType_value t)) = Ok t.
Proof. destruct t; reflexivity. Qed.

Lemma SignalType_call_ok (v : pyval) (t : SignalType) :
  SignalType_call v = Ok t → v = VStr (SignalType_value t).
Proof.
  destruct v as [| | | s | |]; try discriminate. cbn [SignalType_call].
  destruct (find _ _) as [t' |] eqn:F; [| discriminate].
  intros [= ->]. apply find_some in F as [_ F].
  apply String.eqb_eq in F. congruence.
Qed.

(** C4. A confidence below 0.0 or above 1.0 makes the construction of a
    Signal raise [ValueError]; with a confidence from 0.0 to 1.0 the
    construction returns the signal. *)
Theorem confidence_validated (utcnow : datetime) (a : SignalArgs) :
  (f_ltb (a_confidence a) f_zero = true ∨ f_gtb (a_confidence a) f_one = true →
   post_init utcnow a = raise ValueError "Confidence must be between 0.0 and 1.0")
  ∧ (f_leb f_zero (a_confidence a) = true ∧ f_leb (a_confidence a) f_one = true →
     ∃ s, post_init utcnow a = Ok s ∧ confidence s = a_confidence a).
Proof.
  unfold post_init, f_gtb. split.
  - intros Hout.
    assert (E : f_leb f_zero (a_confidence a) && f_leb (a_confidence a) f_one = false).
    { destruct (a_confidence a) as [q | | |]; cbn in Hout |- *;
        try reflexivity; try (destruct Hout; discriminate).
      destruct Hout as [H | H]; apply negb_true_iff in H; rewrite H;
        [reflexivity | apply andb_false_r]. }
    rewrite E. reflexivity.
  - intros [H0 H1]. rewrite H0, H1. cbn [andb negb].
    eexists. split; reflexivity.
Qed.

(** The theorem at the confidences -0.5, 1.5 and 0.85. *)
Lemma confidence_validated_witness :
  post_init Examples.t0
    (mkArgs BUY "BTC/USDT" (Fin (-1 # 2)) None None None None None None "unknown")
  = raise ValueError "Confidence must be between 0.0 and 1.0"
  ∧ post_init Examples.t0
      (mkArgs BUY "BTC/USDT" (Fin (3 # 2)) None None None None None None "unknown")
    = raise ValueError "Confidence must be between 0.0 and 1.0"
  ∧ ∃ s, post_init Examples.t0
           (mkArgs BUY "BTC/USDT" (Fin (85 # 100)) None None None None None None "unknown")
         = Ok s ∧ confidence s = Fin (85 # 100).
Proof.
  split; [| split].
  - apply (confidence_validated Examples.t0
             (mkArgs BUY "BTC/USDT" (Fin (-1 # 2)) None None None None None None "unknown")).
    left. reflexivity.
  - apply (confidence_validated Examples.t0
             (mkArgs BUY "BTC/USDT" (Fin (3 # 2)) None None None None None None "unknown")).
    right. reflexivity.
  - apply (confidence_validated Examples.t0
             (mkArgs BUY "BTC/USDT" (Fin (85 # 100)) None None None None None None "unknown")).
    split; reflexivity.
Defined.

(** C9. [is_exit_signal] is true exactly for SELL, CLOSE, STOP_LOSS and
    TAKE_PROFIT and false exactly for BUY and HOLD, and every signal
    type is in one of the two groups. *)
Theorem is_exit_signal_partition (s : Signal) :
  (is_exit_signal s = true ↔ type s ∈ [SELL; CLOSE; STOP_LOSS; TAKE_PROFIT])
  ∧ (is_exit_signal s = false ↔ type s ∈ [BUY; HOLD])
  ∧ (∀ t : SignalType,
       (t ∈ [SELL; CLOSE; STOP_LOSS; TAKE_PROFIT] ∧ t ∉ [BUY; HOLD])
       ∨ (t ∈ [BUY; HOLD] ∧ t ∉ [SELL; CLOSE; STOP_LOSS; TAKE_PROFIT])).
Proof.
  unfold is_exit_signal. split; [| split].
  - destruct (type s); split; intros H; solve_mem.
  - destruct (type s); split; intros H; solve_mem.
  - intros []; [right | left | right | left | left | left]; split;
      try (intros H); solve_mem.
Qed.

Lemma known_tags_values : SignalType_value <$> SignalType_members = known_tags.
Proof. reflexivity. Qed.







End SignalProperties.

(** ** Bot: statistics *)

Section Statistics.
Context {U : Type}.

Lemma int_truediv_pos (w : Z) (p : positive) :
  ∃ q, int_truediv w (Zpos p) = Ok (Fin q) ∧ (q == inject_Z w / inject_Z (Zpos p))%Q.
Proof.
  exists (w # p). split; [reflexivity |]. apply Qmake_Qdiv.
Qed.



End Statistics.


(** ** Bot: event handlers and initialisation *)

Section Lifecycle.
Context {U : Type}.


End Lifecycle.


Section Initialisation.
Context {U : Type}.
Variable hk : Hooks U.

Lemma calls_app (h : hook) (tr1 tr2 : list obs) :
  calls h (tr1 ++ tr2) = calls h tr1 + calls h tr2.
Proof. unfold calls. rewrite List.filter_app, length_app. reflexivity. Qed.

Lemma emits_app (n : string) (tr1 tr2 : list obs) :
  emits n (tr1 ++ tr2) = emits n tr1 + emits n tr2.
Proof. unfold emits. rewrite List.filter_app, length_app. reflexivity. Qed.

(** What [initialize] does on a bot that is not initialised, by the way
    [setup] ends and the configuration it leaves. *)
Lemma initialize_cases (st : St U) (b1 : Bot U) (r : option exn) :
  _initialized (bot st) = false →
  setup hk (bot st) = (b1, r) →
  initialize hk st =
    match r with
    | Some e =>
        if is_Exception e then
          Some (Err (Exn ConfigurationError
                       ("Bot initialization failed: " ++ exn_msg e)),
                mkSt b1 (trace st ++ [Called h_setup r] ++
                           [Logged ERROR ("Failed to initialize bot: " ++ exn_msg e)]))
        else Some (Err e, mkSt b1 (trace st ++ [Called h_setup r]))
    | None =>
        let fail m :=
          Some (Err (Exn ConfigurationError ("Bot initialization failed: " ++ m)),
                mkSt b1 (trace st ++ [Called h_setup r] ++
                           [Logged ERROR ("Failed to initialize bot: " ++ m)])) in
        if String.eqb (name b1) "" then fail "Bot name is required"
        else if Nat.eqb (length (pairs b1)) 0
             then fail "At least one trading pair is required"
        else if String.eqb (timeframe b1) "" then fail "Timeframe is required"
        else Some (Ok tt,
                   mkSt (set_initialized true b1)
                     (trace st ++ [Called h_setup r] ++
                        [Logged INFO ("Bot " ++ name b1 ++ " v" ++ version b1
                                      ++ " initialized")]))
    end.
Proof.
  intros Hflag Hsetup. unfold initialize, bind at 1, get_bot. rewrite Hflag.
  unfold _validate_config, log.
  unfold try_except, bind, call, get_bot, modify, record, throw, ret.
  rewrite Hsetup. cbn [bot trace].
  destruct r as [e |].
  - destruct (is_Exception e); cbn [bot trace]; rewrite <- ?app_assoc; reflexivity.
  - destruct (String.eqb (name b1) ""); cbn [is_Exception exn_cls bot trace exn_msg];
      [rewrite <- app_assoc; reflexivity |].
    destruct (Nat.eqb (length (pairs b1)) 0);
      cbn [is_Exception exn_cls bot trace exn_msg];
      [rewrite <- app_assoc; reflexivity |].
    destruct (String.eqb (timeframe b1) "");
      cbn [is_Exception exn_cls bot trace exn_msg];
      rewrite <- app_assoc; reflexivity.
Qed.


Lemma initialize_ok_flag (st st1 : St U) :
  initialize hk st = Some (Ok tt, st1) → _initialized (bot st1) = true.
Proof.
  destruct (_initialized (bot st)) eqn:Hflag.
  - unfold initialize, bind, get_bot, ret. rewrite Hflag. intros [= <-]. exact Hflag.
  - destruct (setup hk (bot st)) as [b1 r] eqn:Hsetup.
    rewrite (initialize_cases st b1 r Hflag Hsetup).
    destruct r as [e |]; [destruct (is_Exception e); discriminate |].
    cbv zeta.
    repeat match goal with
           | |- context [if ?c then _ else _] => destruct c; [discriminate |]
           end.
    intros [= <-]. reflexivity.
Qed.

(** C5. After a call of [initialize] that returned, a second call
    returns at once in the same state: no hook is called, nothing is
    logged, no attribute changes; two calls in a row do what one call
    does. *)
Theorem initialize_idempotent (st st1 : St U) :
  initialize hk st = Some (Ok tt, st1) →
  initialize hk st1 = Some (Ok tt, st1)
  ∧ (initialize hk ;; initialize hk) st = initialize hk st.
Proof.
  intros H1. pose proof (initialize_ok_flag st st1 H1) as Hflag.
  assert (H2 : initialize hk st1 = Some (Ok tt, st1)).
  { unfold initialize, bind, get_bot, ret. rewrite Hflag. reflexivity. }
  split; [exact H2 |].
  unfold bind at 1. rewrite H1. exact H2.
Qed.

End Initialisation.



(** C5 at the bot of the scenario. *)
Lemma initialize_idempotent_witness :
  ∃ st1, initialize Examples.good (Examples.st0 0) = Some (Ok tt, st1)
         ∧ initialize Examples.good st1 = Some (Ok tt, st1)
         ∧ (initialize Examples.good ;; initialize Examples.good) (Examples.st0 0)
           = initialize Examples.good (Examples.st0 0).
Proof.
  eexists. split; [reflexivity |].
  apply (initialize_idempotent Examples.good (Examples.st0 0)).
  reflexivity.
Defined.

(** ** Bot: the run loop and the cleanup *)

Create HintDb quiet.

Section Quiet.
Context {U : Type}.
Variable hk : Hooks U.
Variable bus_propagates : bool.
Open Scope list_scope.

Lemma quiet_nil {A} (m : M U A) :
  (∀ st x st', m st = Some (x, st') → trace st' = trace st) → quiet m.
Proof.
  intros H st x st' E. exists []. rewrite app_nil_r.
  split; [exact (H _ _ _ E) | constructor].
Qed.

Lemma quiet_ret {A} (a : A) : quiet (U:=U) (ret a).
Proof. apply quiet_nil. intros st x st' [= <- <-]. reflexivity. Qed.

Lemma quiet_throw {A} (e : exn) : quiet (U:=U) (A:=A) (throw e).
Proof. apply quiet_nil. intros st x st' [= <- <-]. reflexivity. Qed.

Lemma quiet_get_bot : quiet (U:=U) get_bot.
Proof. apply quiet_nil. intros st x st' [= <- <-]. reflexivity. Qed.

Lemma quiet_modify (f : Bot U → Bot U) : quiet (modify f).
Proof. apply quiet_nil. intros st x st' [= <- <-]. reflexivity. Qed.

Lemma quiet_record (o : obs) : other o → quiet (U:=U) (record o).
Proof.
  intros Ho st x st' [= <- <-]. exists [o]. split; [reflexivity |].
  constructor; [exact Ho | constructor].
Qed.

Lemma quiet_log (l : level) (m : string) : quiet (U:=U) (log l m).
Proof. apply quiet_record. split; reflexivity. Qed.

Lemma quiet_call (h : hook) (f : Bot U → Bot U * option exn) :
  h ≠ h_on_stop → quiet (call h f).
Proof.
  intros Hh st x st'. unfold call. destruct (f (bot st)) as [b' r].
  intros [= <- <-]. exists [Called h r]. split; [reflexivity |].
  constructor; [| constructor]. split; [| reflexivity].
  cbn. apply bool_decide_eq_false. exact Hh.
Qed.

Lemma quiet_bind {A B} (m : M U A) (k : A → M U B) :
  quiet m → (∀ a, quiet (k a)) → quiet (bind m k).
Proof.
  intros Hm Hk st x st'. unfold bind.
  destruct (m st) as [[[a | e] st1] |] eqn:E; [| | discriminate].
  - intros Hk'. destruct (Hm _ _ _ E) as (t1 & E1 & F1).
    destruct (Hk a _ _ _ Hk') as (t2 & E2 & F2).
    exists (t1 ++ t2). rewrite E2, E1, app_assoc.
    split; [reflexivity | apply Forall_app; split; assumption].
  - intros [= <- <-]. exact (Hm _ _ _ E).
Qed.

Lemma quiet_try_except {A} (body : M U A) (handler : exn → M U A) :
  quiet body → (∀ e, quiet (handler e)) → quiet (try_except body handler).
Proof.
  intros Hb Hh st x st'. unfold try_except.
  destruct (body st) as [[[a | e] st1] |] eqn:E; [| | discriminate].
  - intros [= <- <-]. exact (Hb _ _ _ E).
  - destruct (Hb _ _ _ E) as (t1 & E1 & F1).
    destruct (is_Exception e).
    + intros Hk'. destruct (Hh e _ _ _ Hk') as (t2 & E2 & F2).
      exists (t1 ++ t2). rewrite E2, E1, app_assoc.
      split; [reflexivity | apply Forall_app; split; assumption].
    + intros [= <- <-]. exists t1. split; assumption.
Qed.

Lemma quiet_if {A} (c : bool) (m1 m2 : M U A) :
  quiet m1 → quiet m2 → quiet (if c then m1 else m2).
Proof. destruct c; intros; assumption. Qed.

Hint Resolve quiet_ret quiet_throw quiet_get_bot quiet_modify quiet_log
  quiet_bind quiet_try_except quiet_if : quiet.

Ltac quiet_call_tac := apply quiet_call; discriminate.

Lemma quiet_handle_order_filled (event : Event) :
  quiet (_handle_order_filled hk event).
Proof.
  unfold _handle_order_filled.
  destruct (ev_data event !! "order") as [[] |]; auto with quiet.
  apply quiet_bind; [quiet_call_tac | auto with quiet].
Qed.

Lemma quiet_handle_position_opened (event : Event) :
  quiet (U:=U) (_handle_position_opened event).
Proof.
  unfold _handle_position_opened.
  destruct (ev_data event !! "position") as [[] |]; auto with quiet.
Qed.

Lemma quiet_handle_position_closed (event : Event) :
  quiet (U:=U) (_handle_position_closed event).
Proof.
  unfold _handle_position_closed.
  destruct (ev_data event !! "position") as [[] |]; auto 10 with quiet.
Qed.

Lemma quiet_handle_error (event : Event) : quiet (_handle_error hk event).
Proof.
  unfold _handle_error.
  destruct (ev_data event !! "error") as [[] |]; auto with quiet.
  quiet_call_tac.
Qed.

Lemma quiet_run_handlers (hs : list (Event → M U unit)) (event : Event) :
  Forall (fun h => quiet (h event)) hs →
  quiet (run_handlers bus_propagates hs event).
Proof.
  induction 1 as [| h hs Hh _ IH]; [apply quiet_ret |].
  intros st x st'. cbn [run_handlers].
  destruct (h event st) as [[[a | e] st1] |] eqn:E; [| | discriminate].
  - intros Hr. destruct (Hh _ _ _ E) as (t1 & E1 & F1).
    destruct (IH _ _ _ Hr) as (t2 & E2 & F2).
    exists (t1 ++ t2). rewrite E2, E1, app_assoc.
    split; [reflexivity | apply Forall_app; split; assumption].
  - destruct (Hh _ _ _ E) as (t1 & E1 & F1). destruct bus_propagates.
    + intros [= <- <-]. exists t1. split; assumption.
    + intros Hr. destruct (IH _ _ _ Hr) as (t2 & E2 & F2).
      exists (t1 ++ t2). rewrite E2, E1, app_assoc.
      split; [reflexivity | apply Forall_app; split; assumption].
Qed.

Lemma quiet_subscribers (name : string) (event : Event) :
  Forall (fun h : Event → M U unit => quiet (h event))
    (List.map snd
       (List.filter (fun h => String.eqb (fst h) name) (_setup_event_handlers hk))).
Proof.
  unfold _setup_event_handlers. cbn [List.filter List.map fst snd].
  repeat match goal with
         | |- context [String.eqb ?a name] => destruct (String.eqb a name)
         end;
    cbn [List.map snd];
    repeat constructor;
    auto using quiet_handle_order_filled, quiet_handle_position_opened,
      quiet_handle_position_closed, quiet_handle_error.
Qed.

Lemma quiet_emit (name : string) (data : gmap string data_val) :
  name ≠ "bot_stopped" → quiet (emit hk bus_propagates name data).
Proof.
  intros Hn. unfold emit. apply quiet_bind.
  - apply quiet_record. split; [reflexivity |]. cbn.
    apply String.eqb_neq. exact Hn.
  - intros _. apply quiet_run_handlers, quiet_subscribers.
Qed.

Lemma quiet_iteration : quiet (iteration hk bus_propagates).
Proof.
  unfold iteration. apply quiet_try_except.
  - apply quiet_bind; [quiet_call_tac |]. intros _.
    apply quiet_bind; [quiet_call_tac | auto with quiet].
  - intros e. apply quiet_bind; [apply quiet_log |]. intros _.
    apply quiet_bind; [apply quiet_emit; discriminate | auto with quiet].
Qed.

Lemma quiet_loop (fuel : nat) : quiet (loop hk bus_propagates fuel).
Proof.
  induction fuel as [| fuel IH]; intros st x st'; cbn [loop];
    destruct (_running (bot st)); try discriminate;
    try (intros [= <- <-]; exists []; rewrite app_nil_r;
         split; [reflexivity | constructor]).
  destruct (iteration hk bus_propagates st) as [[[[] | e] st1] |] eqn:E;
    [| | | discriminate].
  - intros Hl. destruct (quiet_iteration _ _ _ E) as (t1 & E1 & F1).
    destruct (IH _ _ _ Hl) as (t2 & E2 & F2).
    exists (t1 ++ t2). rewrite E2, E1, app_assoc.
    split; [reflexivity | apply Forall_app; split; assumption].
  - intros [= <- <-]. exact (quiet_iteration _ _ _ E).
  - intros [= <- <-]. exact (quiet_iteration _ _ _ E).
Qed.

Lemma quiet_run_body (fuel : nat) : quiet (run_body hk bus_propagates fuel).
Proof.
  unfold run_body. apply quiet_bind; [quiet_call_tac |]. intros _.
  apply quiet_bind; [apply quiet_emit; discriminate |]. intros _.
  apply quiet_loop.
Qed.

Lemma calls_other (tl : list obs) : Forall other tl → calls h_on_stop tl = 0.
Proof.
  unfold calls. induction 1 as [| o tl [Ho _] _ IH]; [reflexivity |].
  cbn [List.filter]. rewrite Ho. exact IH.
Qed.

Lemma emits_other (tl : list obs) : Forall other tl → emits "bot_stopped" tl = 0.
Proof.
  unfold emits. induction 1 as [| o tl [_ Ho] _ IH]; [reflexivity |].
  cbn [List.filter]. rewrite Ho. exact IH.
Qed.

End Quiet.

Section Run.
Context {U : Type}.
Variable hk : Hooks U.
Variable bus_propagates : bool.
Open Scope list_scope.

Lemma total_bind {A B} (m : M U A) (k : A → M U B) :
  total m → (∀ a, total (k a)) → total (bind m k).
Proof.
  intros Hm Hk st. unfold bind. destruct (Hm st) as ([a | e] & st1 & ->).
  - apply Hk.
  - eexists _, _. reflexivity.
Qed.

Lemma total_call (h : hook) (f : Bot U → Bot U * option exn) : total (call h f).
Proof.
  intros st. unfold call. destruct (f (bot st)) as [b' r].
  eexists _, _. reflexivity.
Qed.

Lemma total_run_handlers (hs : list (Event → M U unit)) (event : Event) :
  Forall (fun h => total (h event)) hs →
  total (run_handlers bus_propagates hs event).
Proof.
  induction 1 as [| h hs Hh _ IH]; intros st; cbn [run_handlers].
  - eexists _, _. reflexivity.
  - destruct (Hh st) as ([a | e] & st1 & ->); [apply IH |].
    destruct bus_propagates; [eexists _, _; reflexivity | apply IH].
Qed.

Lemma total_emit_other (name : string) (data : gmap string data_val) :
  name = "bot_started" ∨ name = "bot_stopped" ∨ name = "error" →
  total (emit hk bus_propagates name data).
Proof.
  intros Hn. unfold emit. apply total_bind.
  - intros st. eexists _, _. reflexivity.
  - intros _. apply total_run_handlers.
    destruct Hn as [-> | [-> | ->]]; cbn; repeat constructor.
    intros st. unfold _handle_error.
    destruct (ev_data _ !! "error") as [[] |];
      try (eexists _, _; reflexivity).
    apply total_call.
Qed.


(** [_cleanup] always finishes; it calls [on_stop] first, and publishes
    [bot_stopped] exactly when [on_stop] returned. *)
Lemma cleanup_trace (st : St U) :
  ∃ r st' post,
    _cleanup hk bus_propagates st = Some (r, st')
    ∧ trace st' = trace st ++ Called h_on_stop (snd (on_stop hk (bot st))) :: post
    ∧ calls h_on_stop post = 0
    ∧ emits "bot_stopped" post =
        match snd (on_stop hk (bot st)) with None => 1 | Some _ => 0 end.
Proof.
  unfold _cleanup, try_except, bind at 1, call.
  destruct (on_stop hk (bot st)) as [b' [e |]]; cbn [snd].
  - destruct (is_Exception e).
    + eexists _, _, _. split; [reflexivity |]. cbn [trace].
      rewrite <- app_assoc. split; [reflexivity |]. split; reflexivity.
    + eexists _, _, []. split; [reflexivity |]. split; [reflexivity |].
      split; reflexivity.
  - eexists _, _, _. split; [reflexivity |]. cbn [trace].
    rewrite <- !app_assoc. split; [reflexivity |]. split; reflexivity.
Qed.

(** The [try] statement of [run]: when its body is left, the statement
    finishes with [on_stop] called once, and [bot_stopped] published once
    if that call returned and not at all if it raised. *)
Lemma run_guarded_cleanup (fuel : nat) (st : St U) (r1 : result unit) (st1 : St U) :
  run_body hk bus_propagates fuel st = Some (r1, st1) →
  ∃ r st' o pre post,
    run_guarded hk bus_propagates fuel st = Some (r, st')
    ∧ trace st' = trace st ++ pre ++ Called h_on_stop o :: post
    ∧ Forall other pre
    ∧ calls h_on_stop post = 0
    ∧ calls h_on_stop (trace st') = calls h_on_stop (trace st) + 1
    ∧ emits "bot_stopped" (trace st') =
        emits "bot_stopped" (trace st) + match o with None => 1 | Some _ => 0 end.
Proof.
  intros Hbody.
  destruct (quiet_run_body hk bus_propagates fuel _ _ _ Hbody) as (t1 & E1 & F1).
  assert (Hfin : ∀ (r2 : result unit) (st2 : St U) (pre : list obs),
             trace st2 = trace st ++ pre → Forall other pre →
             ∃ r st' o pre' post,
               match _cleanup hk bus_propagates st2 with
               | None => None
               | Some (Ok _, st'') => Some (r2, st'')
               | Some (Err e, st'') => Some (Err e, st'')
               end = Some (r, st')
               ∧ trace st' = trace st ++ pre' ++ Called h_on_stop o :: post
               ∧ Forall other pre'
               ∧ calls h_on_stop post = 0
               ∧ calls h_on_stop (trace st') = calls h_on_stop (trace st) + 1
               ∧ emits "bot_stopped" (trace st') =
                   emits "bot_stopped" (trace st)
                   + match o with None => 1 | Some _ => 0 end).
  { intros r2 st2 pre E2 F2.
    destruct (cleanup_trace st2) as (r3 & st3 & post & -> & E3 & C3 & M3).
    exists (match r3 with Ok _ => r2 | Err e => Err e end), st3,
      (snd (on_stop hk (bot st2))), pre, post.
    split; [destruct r3 as [[] | e]; reflexivity |].
    rewrite E3, E2, <- app_assoc. split; [reflexivity |].
    split; [exact F2 |]. split; [exact C3 |].
    rewrite !calls_app, !emits_app.
    rewrite (calls_other pre F2), (emits_other pre F2).
    change (Called h_on_stop (snd (on_stop hk (bot st2))) :: post)
      with ([Called h_on_stop (snd (on_stop hk (bot st2)))] ++ post).
    rewrite calls_app, emits_app, C3, M3.
    change (calls h_on_stop [Called h_on_stop (snd (on_stop hk (bot st2)))]) with 1.
    change (emits "bot_stopped" [Called h_on_stop (snd (on_stop hk (bot st2)))]) with 0.
    split; lia. }
  unfold run_guarded, try_finally, try_except. rewrite Hbody.
  destruct r1 as [[] | e].
  - exact (Hfin (Ok tt) st1 t1 E1 F1).
  - destruct (is_Exception e); [| exact (Hfin (Err e) st1 t1 E1 F1)].
    assert (Hq : quiet (U:=U)
              (log ERROR ("Fatal error in bot: " ++ exn_msg e)%string ;;
               emit hk bus_propagates "error" {["error" := DError e]})).
    { apply quiet_bind; [apply quiet_log |]. intros _.
      apply quiet_emit. discriminate. }
    assert (Ht : total (U:=U)
              (log ERROR ("Fatal error in bot: " ++ exn_msg e)%string ;;
               emit hk bus_propagates "error" {["error" := DError e]})).
    { apply total_bind; [intros s; eexists _, _; reflexivity |]. intros _.
      apply total_emit_other. right. right. reflexivity. }
    destruct (Ht st1) as (r2 & st2 & E2). rewrite E2.
    destruct (Hq _ _ _ E2) as (t2 & E2' & F2).
    apply (Hfin r2 st2 (t1 ++ t2)).
    + rewrite E2', E1, app_assoc. reflexivity.
    + apply Forall_app. split; assumption.
Qed.

Lemma quiet_validate_config : quiet (U:=U) _validate_config.
Proof.
  unfold _validate_config. apply quiet_bind; [apply quiet_get_bot |]. intros b.
  repeat (apply quiet_if; [apply quiet_throw |]). apply quiet_ret.
Qed.

Lemma quiet_initialize : quiet (initialize hk).
Proof.
  unfold initialize. apply quiet_bind; [apply quiet_get_bot |]. intros b.
  apply quiet_if; [apply quiet_ret |]. apply quiet_try_except.
  - apply quiet_bind; [apply quiet_call; discriminate |]. intros _.
    apply quiet_bind; [apply quiet_validate_config |]. intros _.
    apply quiet_bind; [apply quiet_modify |]. intros _.
    apply quiet_bind; [apply quiet_get_bot |]. intros b'. apply quiet_log.
  - intros e. apply quiet_bind; [apply quiet_log |]. intros _. apply quiet_throw.
Qed.

Lemma quiet_run_prologue (utcnow : datetime) : quiet (run_prologue hk utcnow).
Proof.
  unfold run_prologue. apply quiet_bind; [apply quiet_get_bot |]. intros b.
  apply quiet_bind;
    [apply quiet_if; [apply quiet_initialize | apply quiet_ret] |]. intros _.
  apply quiet_bind; [apply quiet_modify |]. intros _.
  apply quiet_bind; [apply quiet_modify |]. intros _.
  apply quiet_bind; [apply quiet_get_bot |]. intros b'. apply quiet_log.
Qed.

(** C1 (as amended). An execution of [run] that enters its [try]
    (initialisation succeeded) and leaves the body of the [try], by the
    loop ending, by [break] or by an exception, finishes; in it [on_stop]
    is called exactly once, and [bot_stopped] is published exactly once if
    that call of [on_stop] returned and not at all if it raised ([o] is
    what the call raised, [st0] the state at the [try]). *)
Theorem cleanup_exactly_once (utcnow : datetime) (fuel : nat)
    (st st0 : St U) (r1 : result unit) (st1 : St U) :
  run_prologue hk utcnow st = Some (Ok tt, st0) →
  run_body hk bus_propagates fuel st0 = Some (r1, st1) →
  ∃ r st' o pre post,
    run hk bus_propagates utcnow fuel st = Some (r, st')
    ∧ trace st' = trace st ++ pre ++ Called h_on_stop o :: post
    ∧ Forall other pre
    ∧ calls h_on_stop post = 0
    ∧ calls h_on_stop (trace st') = calls h_on_stop (trace st) + 1
    ∧ emits "bot_stopped" (trace st') =
        emits "bot_stopped" (trace st) + match o with None => 1 | Some _ => 0 end.
Proof.
  intros Hpro Hbody.
  destruct (quiet_run_prologue utcnow _ _ _ Hpro) as (t0 & E0 & F0).
  destruct (run_guarded_cleanup fuel st0 r1 st1 Hbody)
    as (r & st' & o & pre & post & Hrun & Etr & Fpre & Cpost & Hc & He).
  exists r, st', o, (t0 ++ pre), post.
  split; [unfold run, bind; rewrite Hpro; exact Hrun |].
  split; [rewrite Etr, E0, <- !app_assoc; reflexivity |].
  split; [apply Forall_app; split; assumption |].
  split; [exact Cpost |].
  rewrite Hc, He, E0, calls_app, emits_app.
  rewrite (calls_other t0 F0), (emits_other t0 F0). split; lia.
Qed.

(** The loop is left at the test that follows the pass in which the run
    flag was cleared. *)
Lemma loop_exits_after_stop (fuel : nat) (st st' : St U) :
  _running (bot st) = true →
  iteration hk bus_propagates st = Some (Ok Continue, st') →
  _running (bot st') = false →
  loop hk bus_propagates (S fuel) st = Some (Ok tt, st').
Proof.
  intros Hrun Hit Hstop. cbn [loop]. rewrite Hrun, Hit.
  destruct fuel; cbn [loop]; rewrite Hstop; reflexivity.
Qed.

(** The fuel only bounds the number of passes: a loop that is left within
    [fuel] passes is left in the same way with more fuel. *)
Lemma loop_fuel_mono (fuel extra : nat) (st : St U) (x : result unit * St U) :
  loop hk bus_propagates fuel st = Some x →
  loop hk bus_propagates (fuel + extra) st = Some x.
Proof.
  revert st. induction fuel as [| fuel IH]; intros st.
  - cbn [loop]. destruct (_running (bot st)) eqn:Hrun; [discriminate |].
    intros <-. destruct (0 + extra)%nat; cbn [loop]; rewrite Hrun; reflexivity.
  - cbn [loop Nat.add]. destruct (_running (bot st)); [| trivial].
    destruct (iteration hk bus_propagates st) as [[[[] | e] st1] |];
      try trivial.
    apply IH.
Qed.

(** The bus hands a [position_closed] event to [_handle_position_closed]
    and to no other handler. *)
Lemma emit_position_closed (data : gmap string data_val) (st : St U) :
  emit hk bus_propagates "position_closed" data st =
  (record (Emitted (mkEvent "position_closed" data)) ;;
   run_handlers bus_propagates [_handle_position_closed]
     (mkEvent "position_closed" data)) st.
Proof. reflexivity. Qed.


End Run.

(** The amended C1 at a bot that another task stops during the second
    sleep. *)
Lemma cleanup_exactly_once_witness :
  ∃ r st' o pre post,
    run Examples.good true Examples.t0 5 (Examples.st0 1) = Some (r, st')
    ∧ trace st' = (trace (Examples.st0 1) ++ pre ++ Called h_on_stop o :: post)%list
    ∧ Forall other pre
    ∧ calls h_on_stop post = 0
    ∧ calls h_on_stop (trace st') = calls h_on_stop (trace (Examples.st0 1)) + 1
    ∧ emits "bot_stopped" (trace st') =
        emits "bot_stopped" (trace (Examples.st0 1))
        + match o with None => 1 | Some _ => 0 end.
Proof.
  destruct (run_body Examples.good true 5 (Examples.started 1))
    as [[r1 st1] |] eqn:E.
  - apply (cleanup_exactly_once Examples.good true Examples.t0 5
             (Examples.st0 1) (Examples.started 1) r1 st1).
    + vm_compute. reflexivity.
    + exact E.
  - vm_compute in E. discriminate E.
Defined.

(** C1 as stated fails: when [on_stop] raises, [run] ends with [on_stop]
    called once and [bot_stopped] never published. *)
Lemma cleanup_counterexample :
  ∃ r st',
    run Examples.bad_stop true Examples.t0 5 (Examples.st0 1) = Some (r, st')
    ∧ In (Called h_on_stop (Some (Exn RuntimeError "disconnect failed"))) (trace st')
    ∧ calls h_on_stop (trace st') = 1
    ∧ emits "bot_stopped" (trace st') = 0.
Proof.
  eexists _, _. split; [vm_compute; reflexivity |].
  split; [| split; reflexivity].
  cbn [trace]. do 9 right. left. reflexivity.
Qed.



(** * Further properties of the code *)

(** ** Signal: kinds, serialised form, decoding *)

Section SignalFurther.

(** X1. A signal is of exactly one kind: it needs no action (HOLD), or
    it enters a position, or it exits one. [is_actionable] is true exactly
    when one of [is_entry_signal], [is_exit_signal] is, and these two are
    never true together. *)
Theorem signal_kinds (s : Signal) :
  is_actionable s = is_entry_signal s || is_exit_signal s
  ∧ is_entry_signal s && is_exit_signal s = false
  ∧ (is_actionable s = false ↔ type s = HOLD).
Proof.
  unfold is_actionable, is_entry_signal, is_exit_signal.
  destruct (type s); (split; [reflexivity |]); (split; [reflexivity |]);
    split; intros H; first [reflexivity | discriminate H].
Qed.







End SignalFurther.


Section Decoding.

(** What [from_dict] went through when it returned a signal. *)
Lemma from_dict_inv (utcnow : datetime) (data : gmap string pyval) (s : Signal) :
  from_dict utcnow data = Ok s →
  ∃ ty ts sym conf p q sl tp md src,
    data !! "type" = Some (VStr (SignalType_value ty))
    ∧ decode_timestamp data = Ok ts
    ∧ check_keywords data = Ok tt
    ∧ kw_symbol data = Ok sym
    ∧ kw_confidence data = Ok conf
    ∧ kw_opt_float data "price" = Ok p
    ∧ kw_opt_float data "quantity" = Ok q
    ∧ kw_opt_float data "stop_loss" = Ok sl
    ∧ kw_opt_float data "take_profit" = Ok tp
    ∧ kw_metadata data = Ok md
    ∧ kw_source data = Ok src
    ∧ post_init utcnow (mkArgs ty sym conf p q sl tp md ts src) = Ok s.
Proof.
  unfold from_dict, getitem.
  destruct (data !! "type") as [v |] eqn:Ev; [| discriminate].
  cbn [mbind result_bind].
  destruct (SignalType_call v) as [ty |] eqn:Ety; [| discriminate].
  apply SignalType_call_ok in Ety. subst v. cbn [mbind result_bind].
  destruct (decode_timestamp data) as [ts |]; [| discriminate].
  cbn [mbind result_bind].
  destruct (check_keywords data) as [[] |]; [| discriminate].
  cbn [mbind result_bind].
  destruct (kw_symbol data) as [sym |]; [| discriminate].
  cbn [mbind result_bind].
  destruct (kw_confidence data) as [conf |]; [| discriminate].
  cbn [mbind result_bind].
  destruct (kw_opt_float data "price") as [p |]; [| discriminate].
  cbn [mbind result_bind].
  destruct (kw_opt_float data "quantity") as [q |]; [| discriminate].
  cbn [mbind result_bind].
  destruct (kw_opt_float data "stop_loss") as [sl |]; [| discriminate].
  cbn [mbind result_bind].
  destruct (kw_opt_float data "take_profit") as [tp |]; [| discriminate].
  cbn [mbind result_bind].
  destruct (kw_metadata data) as [md |]; [| discriminate].
  cbn [mbind result_bind].
  destruct (kw_source data) as [src |]; [| discriminate].
  cbn [mbind result_bind].
  intros H. exists ty, ts, sym, conf, p, q, sl, tp, md, src.
  repeat (split; [reflexivity |]). exact H.
Qed.

(** The fields of a constructed signal are the arguments, with the two
    defaults filled in. *)
Lemma post_init_fields (utcnow : datetime) (a : SignalArgs) (s : Signal) :
  post_init utcnow a = Ok s →
  s = mkSignal (a_type a) (a_symbol a) (a_confidence a) (a_price a)
        (a_quantity a) (a_stop_loss a) (a_take_profit a)
        (match a_metadata a with None => ∅ | Some m => m end)
        (match a_timestamp a with None => utcnow | Some t => t end)
        (a_source a).
Proof.
  unfold post_init. destruct (negb _); [discriminate |]. intros [= <-]. reflexivity.
Qed.



(** X6. The defaults of decoding: without a [confidence] entry the
    confidence is 1.0, without a [source] entry the source is ["unknown"],
    without a [metadata] entry (or with [None]) the metadata is empty,
    without a [timestamp] entry (or with [None]) the timestamp is the
    current time, and an optional number that is missing or [None] is
    absent from the signal. *)
Theorem from_dict_defaults (utcnow : datetime) (data : gmap string pyval) (s : Signal) :
  from_dict utcnow data = Ok s →
  (data !! "confidence" = None → confidence s = f_one)
  ∧ (data !! "source" = None → source s = "unknown")
  ∧ (data !! "metadata" = None ∨ data !! "metadata" = Some VNone → metadata s = ∅)
  ∧ (data !! "timestamp" = None ∨ data !! "timestamp" = Some VNone →
     timestamp s = utcnow)
  ∧ (data !! "price" = None ∨ data !! "price" = Some VNone → price s = None)
  ∧ (data !! "quantity" = None ∨ data !! "quantity" = Some VNone → quantity s = None)
  ∧ (data !! "stop_loss" = None ∨ data !! "stop_loss" = Some VNone →
     stop_loss s = None)
  ∧ (data !! "take_profit" = None ∨ data !! "take_profit" = Some VNone →
     take_profit s = None).
Proof.
  intros H. apply from_dict_inv in H
    as (ty & ts & sym & conf & p & q & sl & tp & md & src & _ & Hts & _
        & _ & Hconf & Hp & Hq & Hsl & Htp & Hmd & Hsrc & Hs).
  apply post_init_fields in Hs. subst s.
  cbn [confidence source metadata timestamp price quantity stop_loss take_profit
       a_confidence a_source a_metadata a_timestamp a_price a_quantity
       a_stop_loss a_take_profit].
  unfold kw_confidence, kw_source, kw_metadata, decode_timestamp, kw_opt_float in *.
  repeat split.
  - intros E. rewrite E in Hconf. congruence.
  - intros E. rewrite E in Hsrc. congruence.
  - intros [E | E]; rewrite E in Hmd; injection Hmd as <-; reflexivity.
  - intros [E | E]; rewrite E in Hts; cbn in Hts; injection Hts as <-; reflexivity.
  - intros [E | E]; rewrite E in Hp; congruence.
  - intros [E | E]; rewrite E in Hq; congruence.
  - intros [E | E]; rewrite E in Hsl; congruence.
  - intros [E | E]; rewrite E in Htp; congruence.
Qed.

(** X6 at the dictionary of a type and a symbol. *)
Lemma from_dict_defaults_witness :
  confidence (mkSignal HOLD "ETH/USDT" f_one None None None None ∅
                Examples.t0 "unknown") = f_one
  ∧ timestamp (mkSignal HOLD "ETH/USDT" f_one None None None None ∅
                 Examples.t0 "unknown") = Examples.t0.
Proof.
  destruct (from_dict_defaults Examples.t0
              {["type" := VStr "hold"; "symbol" := VStr "ETH/USDT"]}
              (mkSignal HOLD "ETH/USDT" f_one None None None None ∅
                 Examples.t0 "unknown"))
    as (Hc & _ & _ & Hts & _); [reflexivity |].
  split; [apply Hc; reflexivity | apply Hts; left; reflexivity].
Defined.

End Decoding.

Section DecodingInvariants.








(** X9. With a known tag as [type], a [timestamp] entry that is true in a
    condition is handed to [datetime.fromisoformat]: if it is a string
    that the parser refuses, [from_dict] raises what the parser raised; if
    it is not a string (a number other than zero, [True], a non-empty list
    or dictionary), [from_dict] raises [TypeError]. *)
Theorem from_dict_bad_timestamp (utcnow : datetime) (data : gmap string pyval)
    (t : SignalType) (v : pyval) :
  data !! "type" = Some (VStr (SignalType_value t)) →
  data !! "timestamp" = Some v →
  truthy v = true →
  (∀ str, v = VStr str → ∀ e, fromisoformat str = Err e →
     from_dict utcnow data = Err e)
  ∧ ((∀ str, v ≠ VStr str) →
     from_dict utcnow data = raise TypeError "fromisoformat: argument must be str").
Proof.
  intros Hty Hts Htr. unfold from_dict, getitem. rewrite Hty.
  cbn [mbind result_bind]. rewrite SignalType_call_value. cbn [mbind result_bind].
  unfold decode_timestamp. rewrite Hts, Htr. split.
  - intros str -> e He. rewrite He. reflexivity.
  - intros Hno. destruct v; try reflexivity. exfalso. exact (Hno s eq_refl).
Qed.

End DecodingInvariants.


(** X9 at the text of a day that does not exist, and at a number. *)
Lemma from_dict_bad_timestamp_witness :
  from_dict Examples.t0
    {["type" := VStr "buy"; "symbol" := VStr "BTC/USDT";
      "timestamp" := VStr "2023-02-29T00:00:00"]}
  = raise ValueError "Invalid isoformat string"
  ∧ from_dict Examples.t0
      {["type" := VStr "buy"; "symbol" := VStr "BTC/USDT";
        "timestamp" := VNum (Fin 1700000000)]}
    = raise TypeError "fromisoformat: argument must be str".
Proof.
  split.
  - destruct (from_dict_bad_timestamp Examples.t0
                {["type" := VStr "buy"; "symbol" := VStr "BTC/USDT";
                  "timestamp" := VStr "2023-02-29T00:00:00"]}
                BUY (VStr "2023-02-29T00:00:00")) as [H _].
    + reflexivity.
    + reflexivity.
    + reflexivity.
    + apply (H "2023-02-29T00:00:00" eq_refl
               (Exn ValueError "Invalid isoformat string")).
      reflexivity.
  - destruct (from_dict_bad_timestamp Examples.t0
                {["type" := VStr "buy"; "symbol" := VStr "BTC/USDT";
                  "timestamp" := VNum (Fin 1700000000)]}
                BUY (VNum (Fin 1700000000))) as [_ H].
    + reflexivity.
    + reflexivity.
    + reflexivity.
    + apply H. intros str E. discriminate E.
Defined.

(** ** Signal: the class methods *)

Section ClassMethods.

Lemma Signal_with_type (t : SignalType) (utcnow : datetime) (sym : string)
    (kwargs : gmap string kwval) (s : Signal) :
  Signal_with t utcnow sym kwargs = Ok s → type s = t ∧ symbol s = sym.
Proof.
  unfold Signal_with.
  repeat (match goal with
          | |- context [if ?c then _ else _] => destruct c; [discriminate |]
          end).
  repeat match goal with
         | |- context [mbind _ ?x] =>
             destruct x; cbn [mbind result_bind]; [| discriminate]
         end.
  intros H. apply post_init_fields in H. subst s. split; reflexivity.
Qed.

(** X10. Whatever keywords are passed, a signal returned by
    [Signal.buy(symbol, ...)] is a BUY signal for that symbol and so an
    entry signal; one returned by [sell] or [close] is an exit signal; one
    returned by [hold] needs no action. Without keywords the four methods
    always return a signal. *)
Theorem classmethods_result (utcnow : datetime) (sym : string)
    (kwargs : gmap string kwval) (s : Signal) :
  (classmethods.buy utcnow sym kwargs = Ok s →
   type s = BUY ∧ symbol s = sym ∧ is_entry_signal s = true)
  ∧ (classmethods.sell utcnow sym kwargs = Ok s →
     type s = SELL ∧ symbol s = sym ∧ is_exit_signal s = true)
  ∧ (classmethods.close utcnow sym kwargs = Ok s →
     type s = CLOSE ∧ symbol s = sym ∧ is_exit_signal s = true)
  ∧ (classmethods.hold utcnow sym kwargs = Ok s →
     type s = HOLD ∧ symbol s = sym ∧ is_actionable s = false)
  ∧ (∀ t, ∃ s0, Signal_with t utcnow sym ∅ = Ok s0).
Proof.
  unfold classmethods.buy, classmethods.sell, classmethods.close, classmethods.hold.
  do 4 (split;
    [intros H; apply Signal_with_type in H as [Ht Hs];
     unfold is_entry_signal, is_exit_signal, is_actionable;
     rewrite Ht; repeat split; assumption |]).
  intros t. eexists. reflexivity.
Qed.

(** X10 at [Signal.buy] with a confidence and a price. *)
Lemma classmethods_result_witness :
  is_entry_signal
    (mkSignal BUY "BTC/USDT" (Fin (85 # 100)) (Some (Fin 45000)) None None None ∅
       (Datetime 2024 1 1 0 0 0 0) "unknown") = true.
Proof.
  apply (proj1 (classmethods_result (Datetime 2024 1 1 0 0 0 0) "BTC/USDT"
                  {["confidence" := KNum (Fin (85 # 100)); "price" := KNum (Fin 45000)]}
                  (mkSignal BUY "BTC/USDT" (Fin (85 # 100)) (Some (Fin 45000))
                     None None None ∅ (Datetime 2024 1 1 0 0 0 0) "unknown"))).
  reflexivity.
Defined.

(** X11. The class methods fix the type and the symbol: passing [type]
    or [symbol] again as a keyword is a [TypeError], and so is a keyword
    that is not a field of the signal. *)
Theorem classmethod_keyword_clash (t : SignalType) (utcnow : datetime) (sym : string)
    (kwargs : gmap string kwval) (k : string) :
  is_Some (kwargs !! k) →
  k = "type" ∨ k = "symbol" ∨ k ∉ field_names →
  ∃ m, Signal_with t utcnow sym kwargs = raise TypeError m.
Proof.
  intros Hk Hbad. apply elem_of_dom in Hk. unfold Signal_with.
  destruct (bool_decide ("type" ∈ dom kwargs)) eqn:E1; [eexists; reflexivity |].
  destruct (bool_decide ("symbol" ∈ dom kwargs)) eqn:E2; [eexists; reflexivity |].
  destruct (bool_decide (dom kwargs ⊆ list_to_set field_names)) eqn:E3;
    cbn [negb]; [| eexists; reflexivity].
  exfalso. apply bool_decide_eq_false in E1, E2. apply bool_decide_eq_true in E3.
  destruct Hbad as [-> | [-> | Hk']]; [exact (E1 Hk) | exact (E2 Hk) |].
  apply Hk'. apply E3 in Hk. apply elem_of_list_to_set in Hk. exact Hk.
Qed.

End ClassMethods.

(** X11 at [Signal.sell("BTC/USDT", type=SignalType.BUY)]. *)
Lemma classmethod_keyword_clash_witness :
  ∃ m, Signal_with SELL Examples.t0 "BTC/USDT" {["type" := KType BUY]}
       = raise TypeError m.
Proof.
  apply (classmethod_keyword_clash SELL Examples.t0 "BTC/USDT"
           {["type" := KType BUY]} "type").
  - eexists. reflexivity.
  - left. reflexivity.
Defined.

(** ** Bot: positions and orders *)

Section Positions.
Context {U : Type}.
Variable hk : Hooks U.
Open Scope list_scope.

(** X12. A filled order is counted only after the user's hook has
    returned: when [on_order_filled] returns, [total_trades] is one more
    than the hook left it; when it raises, the exception leaves the handler
    and the order is not counted. The hook is called exactly once either
    way, and an event without an order does nothing. *)
Theorem order_filled_counted (st : St U) (event : Event) :
  (ev_data event !! "order" = None →
   _handle_order_filled hk event st = Some (Ok tt, st))
  ∧ (∀ order, ev_data event !! "order" = Some (DOrder order) →
     let b1 := fst (on_order_filled hk order (bot st)) in
     match snd (on_order_filled hk order (bot st)) with
     | None =>
         _handle_order_filled hk event st =
         Some (Ok tt, mkSt (set_total_trades (total_trades b1 + 1) b1)
                        (trace st ++ [Called h_on_order_filled None]))
     | Some e =>
         _handle_order_filled hk event st =
         Some (Err e, mkSt b1 (trace st ++ [Called h_on_order_filled (Some e)]))
     end).
Proof.
  unfold _handle_order_filled. split.
  - intros ->. destruct st. reflexivity.
  - intros order ->. unfold bind, call, modify.
    destruct (on_order_filled hk order (bot st)) as [b1 [e |]]; reflexivity.
Qed.

(** X13. Opening a position stores it under its symbol, replacing what
    was there: afterwards [get_position] returns it, [has_position] is
    true for the symbol (if it is not the empty string) and for no symbol
    at all, the other symbols and the statistics are as before. An event
    without a position does nothing. *)
Theorem position_opened_stored (st : St U) (event : Event) :
  (ev_data event !! "position" = None →
   _handle_position_opened event st = Some (Ok tt, st))
  ∧ (∀ p, ev_data event !! "position" = Some (DPosition p) →
     ∃ st', _handle_position_opened event st = Some (Ok tt, st')
       ∧ get_position (bot st') (pos_symbol p) = Some p
       ∧ (∀ k, k ≠ pos_symbol p →
            get_position (bot st') k = get_position (bot st) k)
       ∧ (pos_symbol p ≠ "" → has_position (bot st') (Some (pos_symbol p)) = true)
       ∧ has_position (bot st') None = true
       ∧ winning_trades (bot st') = winning_trades (bot st)
       ∧ losing_trades (bot st') = losing_trades (bot st)
       ∧ total_trades (bot st') = total_trades (bot st)
       ∧ total_pnl (bot st') = total_pnl (bot st)).
Proof.
  unfold _handle_position_opened. split.
  - intros ->. destruct st. reflexivity.
  - intros p ->. unfold bind, modify, log, record. cbn [bot trace].
    eexists. split; [reflexivity |].
    cbn [bot get_position has_position set_positions positions winning_trades
         losing_trades total_trades total_pnl].
    split; [apply lookup_insert_eq |].
    split; [intros k Hk; apply lookup_insert_ne; congruence |].
    split.
    { intros Hne. apply String.eqb_neq in Hne. rewrite Hne. cbn [negb].
      apply bool_decide_eq_true. apply elem_of_dom. rewrite lookup_insert_eq. eauto. }
    split.
    { apply negb_true_iff, Nat.eqb_neq. intros Hz.
      apply map_size_empty_iff in Hz.
      apply (insert_non_empty (positions (bot st)) (pos_symbol p) p). exact Hz. }
    repeat split.
Qed.

(** The state a [position_closed] event with a position leads to. *)
Lemma position_closed_state (st : St U) (p : Position) :
  _handle_position_closed (closed_event p) st =
  Some (Ok tt,
        mkSt (set_positions (delete (pos_symbol p) (positions (bot st)))
                (set_total_pnl (f_add (total_pnl (bot st)) (pos_pnl p))
                   (if f_gtb (pos_pnl p) f_zero
                    then set_winning_trades (winning_trades (bot st) + 1) (bot st)
                    else set_losing_trades (losing_trades (bot st) + 1) (bot st))))
          (trace st ++ [Logged INFO ("Position closed: " ++ pos_symbol p)%string])).
Proof.
  unfold _handle_position_closed, closed_event. cbn [ev_data].
  rewrite lookup_singleton_eq. unfold bind, get_bot, modify, log, record, ret.
  destruct st as [b tr].
  destruct (f_gtb (pos_pnl p) f_zero); cbn [bot trace];
    (destruct (bool_decide (pos_symbol p ∈ dom (positions _))) eqn:Hin;
     cbn [bot trace positions set_total_pnl set_winning_trades set_losing_trades];
     [reflexivity |]);
    apply bool_decide_eq_false in Hin; apply not_elem_of_dom in Hin;
    cbn [positions set_total_pnl set_winning_trades set_losing_trades] in Hin;
    rewrite (delete_id _ _ Hin); unfold set_positions;
    cbn [positions name version description author pairs timeframe exchange
         _running _initialized _start_time orders total_trades winning_trades
         losing_trades total_pnl attrs];
    destruct b; reflexivity.
Qed.

(** X14. Opening a position and then closing it leaves the positions as
    they were when the symbol was free, and without that symbol in any
    case; the closing is counted as one win or one loss, by the sign of the
    [pnl] the closing event carries. *)
Theorem open_then_close (st : St U) (p p' : Position) :
  pos_symbol p' = pos_symbol p →
  ∃ st',
    (_handle_position_opened (opened_event p) ;;
     _handle_position_closed (closed_event p')) st = Some (Ok tt, st')
    ∧ positions (bot st') = delete (pos_symbol p) (positions (bot st))
    ∧ (positions (bot st) !! pos_symbol p = None →
       positions (bot st') = positions (bot st))
    ∧ (winning_trades (bot st') + losing_trades (bot st')
       = winning_trades (bot st) + losing_trades (bot st) + 1)%Z
    ∧ winning_trades (bot st') =
        (winning_trades (bot st) + if f_gtb (pos_pnl p') f_zero then 1 else 0)%Z.
Proof.
  intros Hsym. unfold bind at 1.
  unfold _handle_position_opened, opened_event. cbn [ev_data].
  rewrite lookup_singleton_eq. unfold bind at 1, modify, log, record.
  cbn [bot trace]. rewrite position_closed_state. eexists. split; [reflexivity |].
  cbn [bot positions set_positions set_total_pnl winning_trades losing_trades].
  rewrite Hsym.
  assert (Hdel : delete (pos_symbol p) (<[pos_symbol p:=p]> (positions (bot st)))
                 = delete (pos_symbol p) (positions (bot st)))
    by apply delete_insert_eq.
  split; [exact Hdel |]. split.
  - intros Hfree. rewrite Hdel. apply delete_id. exact Hfree.
  - destruct (f_gtb (pos_pnl p') f_zero);
      cbn [winning_trades losing_trades set_winning_trades set_losing_trades
           set_positions];
      split; lia.
Qed.

(** X15. [has_position] with a symbol answers whether [get_position]
    finds it; without a symbol it answers whether there is any position;
    and with the empty string as symbol it does the latter, not the
    former. *)
Theorem has_position_spec (b : Bot U) :
  (∀ s, s ≠ "" → (has_position b (Some s) = true ↔ is_Some (get_position b s)))
  ∧ (has_position b None = true ↔ positions b ≠ ∅)
  ∧ has_position b (Some "") = has_position b None.
Proof.
  unfold has_position, get_position. split; [| split].
  - intros s Hs. apply String.eqb_neq in Hs. rewrite Hs. cbn [negb].
    rewrite bool_decide_eq_true. apply elem_of_dom.
  - rewrite negb_true_iff, Nat.eqb_neq. split.
    + intros Hz He. apply Hz. rewrite He. apply map_size_empty.
    + intros Hne Hz. apply Hne. apply map_size_empty_iff. exact Hz.
  - reflexivity.
Qed.

End Positions.

(** X14 at a position opened and closed with a profit on a fresh bot. *)
Lemma open_then_close_witness :
  ∃ st',
    (_handle_position_opened (opened_event (mkPosition "BTC/USDT" (Fin 0))) ;;
     _handle_position_closed (closed_event (mkPosition "BTC/USDT" (Fin 50))))
      (Examples.st0 0) = Some (Ok tt, st')
    ∧ positions (bot st') = delete "BTC/USDT" (positions (bot (Examples.st0 0)))
    ∧ (positions (bot (Examples.st0 0)) !! "BTC/USDT" = None →
       positions (bot st') = positions (bot (Examples.st0 0)))
    ∧ (winning_trades (bot st') + losing_trades (bot st')
       = winning_trades (bot (Examples.st0 0))
         + losing_trades (bot (Examples.st0 0)) + 1)%Z
    ∧ winning_trades (bot st') = (winning_trades (bot (Examples.st0 0)) + 1)%Z.
Proof.
  apply (open_then_close (Examples.st0 0) (mkPosition "BTC/USDT" (Fin 0))
           (mkPosition "BTC/USDT" (Fin 50))).
  reflexivity.
Defined.

(** X12 at a bot whose hook returns, for one order. *)
Lemma order_filled_counted_witness :
  _handle_order_filled Examples.good
    (mkEvent "order_filled" {["order" := DOrder (mkOrder "o-1")]}) (Examples.st0 0)
  = Some (Ok tt, mkSt (set_total_trades 1 (Examples.bot0 0))
                   [Called h_on_order_filled None]).
Proof.
  apply (proj2 (order_filled_counted Examples.good (Examples.st0 0)
                  (mkEvent "order_filled" {["order" := DOrder (mkOrder "o-1")]}))
           (mkOrder "o-1")).
  reflexivity.
Defined.

(** X13 at a first position on a fresh bot. *)
Lemma position_opened_stored_witness :
  ∃ st', _handle_position_opened
           (opened_event (mkPosition "BTC/USDT" (Fin 0))) (Examples.st0 0)
         = Some (Ok tt, st')
         ∧ get_position (bot st') "BTC/USDT" = Some (mkPosition "BTC/USDT" (Fin 0))
         ∧ has_position (bot st') (Some "BTC/USDT") = true.
Proof.
  destruct (proj2 (position_opened_stored (Examples.st0 0)
                     (opened_event (mkPosition "BTC/USDT" (Fin 0))))
              (mkPosition "BTC/USDT" (Fin 0)))
    as (st' & H & Hget & _ & Hhas & _); [reflexivity |].
  exists st'. split; [exact H |]. split; [exact Hget |].
  apply Hhas. discriminate.
Defined.

(** X15 at a bot with one position. *)
Lemma has_position_spec_witness :
  has_position (set_positions {["BTC/USDT" := mkPosition "BTC/USDT" (Fin 0)]}
                  (Examples.bot0 0)) (Some "BTC/USDT") = true.
Proof.
  apply (proj1 (has_position_spec
                  (set_positions {["BTC/USDT" := mkPosition "BTC/USDT" (Fin 0)]}
                     (Examples.bot0 0)))
           "BTC/USDT").
  - discriminate.
  - eexists. reflexivity.
Defined.

(** ** Bot: a history of closed positions *)

Section History.
Context {U : Type}.
Open Scope list_scope.




End History.


(** ** Bot: what [run] does when something fails *)

(** Counts over the explicit end of a trace. *)
Ltac count_trace :=
  cbn [trace]; rewrite ?calls_app, ?emits_app;
  repeat match goal with
         | |- context [calls ?h (?x :: ?l)] =>
             let n := eval vm_compute in (calls h (x :: l)) in
             change (calls h (x :: l)) with n
         | |- context [emits ?nm (?x :: ?l)] =>
             let n := eval vm_compute in (emits nm (x :: l)) in
             change (emits nm (x :: l)) with n
         end;
  lia.

Section Failures.
Context {U : Type}.
Variable hk : Hooks U.
Variable bus_propagates : bool.
Open Scope list_scope.

(** Publishing an error: the bus hands it to [_handle_error], which calls
    [on_error]. *)
Lemma emit_error_run (e : exn) (st : St U) :
  emit hk bus_propagates "error" {["error" := DError e]} st =
  Some (match snd (on_error hk e (bot st)) with
        | None => Ok tt
        | Some e' => if bus_propagates then Err e' else Ok tt
        end,
        mkSt (fst (on_error hk e (bot st)))
          (trace st ++ [Emitted (mkEvent "error" {["error" := DError e]});
                        Called h_on_error (snd (on_error hk e (bot st)))])).
Proof.
  unfold emit, bind, record. cbn [List.filter List.map _setup_event_handlers
    fst snd String.eqb Ascii.eqb Bool.eqb run_handlers bot trace].
  unfold _handle_error. cbn [ev_data]. rewrite lookup_singleton_eq.
  unfold call. cbn [bot trace].
  destruct (on_error hk e (bot st)) as [b1 [e' |]]; cbn [fst snd];
    rewrite <- app_assoc; [destruct bus_propagates |]; reflexivity.
Qed.

(** What [_cleanup] does, by the way [on_stop] ends. *)
Lemma cleanup_run (st : St U) :
  _cleanup hk bus_propagates st =
  match snd (on_stop hk (bot st)) with
  | None =>
      Some (Ok tt,
            mkSt (fst (on_stop hk (bot st)))
              (trace st ++ [Called h_on_stop None;
                            Emitted (mkEvent "bot_stopped" {["bot" := DBot]});
                            Logged INFO ("Bot " ++ name (fst (on_stop hk (bot st)))
                                         ++ " stopped")%string]))
  | Some e =>
      if is_Exception e then
        Some (Ok tt,
              mkSt (fst (on_stop hk (bot st)))
                (trace st ++ [Called h_on_stop (Some e);
                              Logged ERROR ("Error during cleanup: " ++ exn_msg e)%string]))
      else
        Some (Err e,
              mkSt (fst (on_stop hk (bot st)))
                (trace st ++ [Called h_on_stop (Some e)]))
  end.
Proof.
  unfold _cleanup, try_except, bind at 1, call.
  destruct (on_stop hk (bot st)) as [b1 [e |]]; cbn [fst snd].
  - destruct (is_Exception e); [| reflexivity].
    unfold log, record. cbn [bot trace]. rewrite <- app_assoc. reflexivity.
  - unfold bind, emit, record, get_bot, log, bind.
    cbn [List.filter List.map _setup_event_handlers fst snd String.eqb
         Ascii.eqb Bool.eqb run_handlers bot trace].
    unfold ret, record. cbn [bot trace]. rewrite <- !app_assoc. reflexivity.
Qed.

(** X17. When [initialize] fails, [run] raises what [initialize] raised
    and does nothing else: the running flag is not set, no hook other than
    [setup] is called (neither [on_start] nor [on_stop]), and no event is
    published. *)
Theorem run_initialize_fails (utcnow : datetime) (fuel : nat)
    (st st1 : St U) (e : exn) :
  _initialized (bot st) = false →
  initialize hk st = Some (Err e, st1) →
  run hk bus_propagates utcnow fuel st = Some (Err e, st1)
  ∧ _running (bot st1) = _running (fst (setup hk (bot st)))
  ∧ (∀ h, h ≠ h_setup → calls h (trace st1) = calls h (trace st))
  ∧ (∀ n, emits n (trace st1) = emits n (trace st)).
Proof.
  intros Hflag Hinit. split.
  { unfold run, bind at 1, run_prologue, bind at 1, get_bot. rewrite Hflag.
    cbn [negb]. unfold bind at 1. rewrite Hinit. reflexivity. }
  destruct (setup hk (bot st)) as [b1 r] eqn:Hsetup.
  rewrite (initialize_cases hk st b1 r Hflag Hsetup) in Hinit. cbn [fst].
  assert (Hcall : ∀ h tl, h ≠ h_setup →
                     calls h (Called h_setup r :: tl) = calls h tl).
  { intros h tl Hh. unfold calls. cbn [List.filter is_call].
    rewrite bool_decide_eq_false_2 by congruence. reflexivity. }
  destruct r as [e0 |].
  - destruct (is_Exception e0); injection Hinit as <- <-; cbn [bot trace];
      (split; [reflexivity |]); split; intros;
      rewrite ?calls_app, ?emits_app, ?Hcall by assumption;
      unfold calls, emits; cbn; lia.
  - cbv zeta in Hinit.
    repeat match type of Hinit with
           | (if ?c then _ else _) = _ => destruct c
           end;
      try discriminate; injection Hinit as <- <-; cbn [bot trace];
      (split; [reflexivity |]); split; intros;
      rewrite ?calls_app, ?emits_app, ?Hcall by assumption;
      unfold calls, emits; cbn; lia.
Qed.

(** X18. When [on_start] raises an exception derived from [Exception],
    [run] does not enter the loop, whatever the fuel: the processing step
    is never called and [bot_started] is not published; the error is
    published once and reaches [on_error] once, and the cleanup calls
    [on_stop] once. *)
Theorem on_start_failure (fuel : nat) (st0 : St U) (e : exn) :
  snd (on_start hk (bot st0)) = Some e →
  is_Exception e = true →
  ∃ r st',
    run_guarded hk bus_propagates fuel st0 = Some (r, st')
    ∧ calls h_process_market_data (trace st') = calls h_process_market_data (trace st0)
    ∧ emits "bot_started" (trace st') = emits "bot_started" (trace st0)
    ∧ emits "error" (trace st') = emits "error" (trace st0) + 1
    ∧ calls h_on_error (trace st') = calls h_on_error (trace st0) + 1
    ∧ calls h_on_stop (trace st') = calls h_on_stop (trace st0) + 1.
Proof.
  intros Hraise Hexc.
  assert (Hbody : run_body hk bus_propagates fuel st0 =
                   Some (Err e, mkSt (fst (on_start hk (bot st0)))
                                  (trace st0 ++ [Called h_on_start (Some e)]))).
  { unfold run_body, bind at 1, call.
    destruct (on_start hk (bot st0)) as [b1 r]. cbn [snd fst] in *. subst r.
    reflexivity. }
  unfold run_guarded, try_finally, try_except. rewrite Hbody, Hexc.
  unfold bind at 1, log, record. cbn [bot trace].
  rewrite emit_error_run. cbn [bot trace]. rewrite cleanup_run. cbn [bot trace].
  destruct (snd (on_stop hk _)) as [e3 |]; [destruct (is_Exception e3) |];
    eexists _, _; (split; [reflexivity |]);
    repeat split; count_trace.
Qed.

End Failures.

Section Stopping.
Context {U : Type}.
Variable hk : Hooks U.
Variable bus_propagates : bool.
Open Scope list_scope.


(** X20. [stop()] clears the running flag, and from then on the loop
    makes no pass, whatever fuel it is given; but a [stop()] issued before
    [run()] is lost, because [run] sets the flag on entry. *)
Theorem stop_effects (utcnow : datetime) (fuel : nat) (st : St U) :
  (∃ st', stop st = Some (Ok tt, st')
          ∧ _running (bot st') = false
          ∧ loop hk bus_propagates fuel st' = Some (Ok tt, st'))
  ∧ (_initialized (bot st) = true →
     ∃ st', (stop ;; run_prologue hk utcnow) st = Some (Ok tt, st')
            ∧ _running (bot st') = true
            ∧ _start_time (bot st') = Some utcnow).
Proof.
  split.
  - eexists. split; [reflexivity |]. split; [reflexivity |].
    destruct fuel; reflexivity.
  - intros Hinit. unfold bind at 1, stop, bind at 1, get_bot, bind at 1, log,
      record, modify. cbn [bot trace].
    unfold run_prologue, bind at 1, get_bot. cbn [bot _initialized set_running].
    rewrite Hinit. cbn [negb]. eexists. split; [reflexivity |].
    split; reflexivity.
Qed.

(** X21. A failed [initialize] can be tried again: the bot is still not
    initialised, and the next call runs [setup] once more. The second
    hypothesis says that [setup] does not itself write the private flag. *)
Theorem initialize_retry (st st1 : St U) (e : exn) :
  _initialized (bot st) = false →
  _initialized (fst (setup hk (bot st))) = false →
  initialize hk st = Some (Err e, st1) →
  _initialized (bot st1) = false
  ∧ ∃ r2 st2, initialize hk st1 = Some (r2, st2)
              ∧ calls h_setup (trace st2) = calls h_setup (trace st) + 2.
Proof.
  intros Hflag Hframe Hinit.
  destruct (setup hk (bot st)) as [b1 r] eqn:Hsetup. cbn [fst] in Hframe.
  rewrite (initialize_cases hk st b1 r Hflag Hsetup) in Hinit.
  assert (Hst1 : bot st1 = b1
                 ∧ calls h_setup (trace st1) = calls h_setup (trace st) + 1).
  { destruct r as [e0 |].
    - destruct (is_Exception e0); injection Hinit as <- <-;
        (split; [reflexivity |]); count_trace.
    - cbv zeta in Hinit.
      repeat match type of Hinit with
             | (if ?c then _ else _) = _ => destruct c
             end;
        try discriminate; injection Hinit as <- <-;
        (split; [reflexivity |]); count_trace. }
  destruct Hst1 as [Hb Hc]. split; [rewrite Hb; exact Hframe |].
  assert (Hflag1 : _initialized (bot st1) = false) by (rewrite Hb; exact Hframe).
  destruct (setup hk (bot st1)) as [b2 r2] eqn:Hsetup1.
  rewrite (initialize_cases hk st1 b2 r2 Hflag1 Hsetup1).
  destruct r2 as [e2 |].
  - destruct (is_Exception e2); eexists _, _; (split; [reflexivity |]);
      cbn [trace]; rewrite calls_app, Hc; count_trace.
  - cbv zeta.
    repeat match goal with
           | |- context [if ?c then _ else _] => destruct c
           end;
      eexists _, _; (split; [reflexivity |]);
      cbn [trace]; rewrite calls_app, Hc; count_trace.
Qed.

End Stopping.

(** X17 at a bot whose [setup] leaves no pair. *)
Lemma run_initialize_fails_witness :
  ∃ e st1,
    run Examples.no_pairs true Examples.t0 5 (Examples.st0 1) = Some (Err e, st1)
    ∧ _running (bot st1) = false
    ∧ calls h_on_start (trace st1) = 0
    ∧ calls h_on_stop (trace st1) = 0.
Proof.
  destruct (initialize Examples.no_pairs (Examples.st0 1)) as [[[[] | e] st1] |] eqn:E;
    try (vm_compute in E; discriminate E).
  destruct (run_initialize_fails Examples.no_pairs true Examples.t0 5
              (Examples.st0 1) st1 e eq_refl E) as (Hrun & Hflag & Hcalls & _).
  exists e, st1. split; [exact Hrun |]. split; [exact Hflag |].
  split; [apply (Hcalls h_on_start) | apply (Hcalls h_on_stop)]; discriminate.
Defined.

(** X18 at a bot whose [on_start] raises, with no fuel at all. *)
Lemma on_start_failure_witness :
  ∃ r st',
    run_guarded Examples.bad_start true 0 (Examples.started 1) = Some (r, st')
    ∧ calls h_process_market_data (trace st')
      = calls h_process_market_data (trace (Examples.started 1))
    ∧ emits "bot_started" (trace st') = emits "bot_started" (trace (Examples.started 1))
    ∧ emits "error" (trace st') = emits "error" (trace (Examples.started 1)) + 1
    ∧ calls h_on_error (trace st') = calls h_on_error (trace (Examples.started 1)) + 1
    ∧ calls h_on_stop (trace st') = calls h_on_stop (trace (Examples.started 1)) + 1.
Proof.
  apply (on_start_failure Examples.bad_start true 0 (Examples.started 1)
           (Exn RuntimeError "no connection")).
  - reflexivity.
  - reflexivity.
Defined.


(** X20 at an initialised bot. *)
Lemma stop_effects_witness :
  ∃ st', (stop ;; run_prologue Examples.good Examples.t0) (Examples.running 1)
         = Some (Ok tt, st')
         ∧ _running (bot st') = true
         ∧ _start_time (bot st') = Some Examples.t0.
Proof.
  apply (proj2 (stop_effects Examples.good true Examples.t0 0 (Examples.running 1))).
  reflexivity.
Defined.

(** X21 at a bot whose [setup] leaves no pair. *)
Lemma initialize_retry_witness :
  ∃ e st1,
    initialize Examples.no_pairs (Examples.st0 1) = Some (Err e, st1)
    ∧ _initialized (bot st1) = false
    ∧ ∃ r2 st2, initialize Examples.no_pairs st1 = Some (r2, st2)
                ∧ calls h_setup (trace st2) = calls h_setup (trace (Examples.st0 1)) + 2.
Proof.
  destruct (initialize Examples.no_pairs (Examples.st0 1)) as [[[[] | e] st1] |] eqn:E;
    try (vm_compute in E; discriminate E).
  exists e, st1. split; [reflexivity |].
  apply (initialize_retry Examples.no_pairs (Examples.st0 1) st1 e eq_refl eq_refl E).
Defined.

(** ** Bot: the running flag *)

Section RunningFlag.
Context {U : Type}.
Variable hk : Hooks U.
Variable bus_propagates : bool.

Lemma steady_ret {A} (a : A) : steady (U:=U) (ret a).
Proof. intros st x st' [= <- <-]. reflexivity. Qed.

Lemma steady_throw {A} (e : exn) : steady (U:=U) (A:=A) (throw e).
Proof. intros st x st' [= <- <-]. reflexivity. Qed.

Lemma steady_get_bot : steady (U:=U) get_bot.
Proof. intros st x st' [= <- <-]. reflexivity. Qed.

Lemma steady_record (o : obs) : steady (U:=U) (record o).
Proof. intros st x st' [= <- <-]. reflexivity. Qed.

Lemma steady_modify (f : Bot U → Bot U) :
  (∀ b, _running (f b) = _running b) → steady (modify f).
Proof. intros Hf st x st' [= <- <-]. apply Hf. Qed.

Lemma steady_call (h : hook) (f : Bot U → Bot U * option exn) :
  hook_keeps_running f → steady (call h f).
Proof.
  intros Hf st x st'. unfold call. specialize (Hf (bot st)).
  destruct (f (bot st)) as [b' r]. intros [= <- <-]. exact Hf.
Qed.

Lemma steady_bind {A B} (m : M U A) (k : A → M U B) :
  steady m → (∀ a, steady (k a)) → steady (bind m k).
Proof.
  intros Hm Hk st x st'. unfold bind.
  destruct (m st) as [[[a | e] st1] |] eqn:E; [| | discriminate].
  - intros Hk'. rewrite (Hk a _ _ _ Hk'). exact (Hm _ _ _ E).
  - intros [= <- <-]. exact (Hm _ _ _ E).
Qed.

Lemma steady_try_except {A} (body : M U A) (handler : exn → M U A) :
  steady body → (∀ e, steady (handler e)) → steady (try_except body handler).
Proof.
  intros Hb Hh st x st'. unfold try_except.
  destruct (body st) as [[[a | e] st1] |] eqn:E; [| | discriminate].
  - intros [= <- <-]. exact (Hb _ _ _ E).
  - destruct (is_Exception e).
    + intros Hk'. rewrite (Hh e _ _ _ Hk'). exact (Hb _ _ _ E).
    + intros [= <- <-]. exact (Hb _ _ _ E).
Qed.

Lemma steady_try_finally {A} (body : M U A) (fin : M U unit) :
  steady body → steady fin → steady (try_finally body fin).
Proof.
  intros Hb Hf st x st'. unfold try_finally.
  destruct (body st) as [[r st1] |] eqn:E; [| discriminate].
  destruct (fin st1) as [[[[] | e] st2] |] eqn:E2; [| | discriminate];
    intros [= <- <-]; rewrite (Hf _ _ _ E2); exact (Hb _ _ _ E).
Qed.

Lemma steady_if {A} (c : bool) (m1 m2 : M U A) :
  steady m1 → steady m2 → steady (if c then m1 else m2).
Proof. destruct c; intros; assumption. Qed.

Hypothesis Hhooks : hooks_keep_running hk.

Lemma steady_handlers (event : Event) :
  Forall (fun h : Event → M U unit => steady (h event))
    (List.map snd (_setup_event_handlers hk)).
Proof.
  destruct Hhooks as (_ & Hof & Herr & _).
  unfold _setup_event_handlers. cbn [List.map snd]. repeat constructor.
  - unfold _handle_order_filled.
    destruct (ev_data event !! "order") as [[] |];
      try apply steady_ret; try apply steady_throw.
    apply steady_bind; [apply steady_call, Hof |]. intros _.
    apply steady_modify. reflexivity.
  - unfold _handle_position_opened.
    destruct (ev_data event !! "position") as [[] |];
      try apply steady_ret; try apply steady_throw.
    apply steady_bind; [apply steady_modify; reflexivity |]. intros _.
    apply steady_record.
  - unfold _handle_position_closed.
    destruct (ev_data event !! "position") as [[] |];
      try apply steady_ret; try apply steady_throw.
    apply steady_bind;
      [apply steady_if; apply steady_modify; reflexivity |]. intros _.
    apply steady_bind; [apply steady_modify; reflexivity |]. intros _.
    apply steady_bind; [apply steady_get_bot |]. intros b.
    apply steady_bind;
      [apply steady_if; [apply steady_modify; reflexivity | apply steady_ret] |].
    intros _. apply steady_record.
  - unfold _handle_error.
    destruct (ev_data event !! "error") as [[] |];
      try apply steady_ret; try apply steady_throw.
    apply steady_call, Herr.
Qed.

Lemma steady_run_handlers (hs : list (Event → M U unit)) (event : Event) :
  Forall (fun h => steady (h event)) hs →
  steady (run_handlers bus_propagates hs event).
Proof.
  induction 1 as [| h hs Hh _ IH]; [apply steady_ret |].
  intros st x st'. cbn [run_handlers].
  destruct (h event st) as [[[a | e] st1] |] eqn:E; [| | discriminate].
  - intros Hr. rewrite (IH _ _ _ Hr). exact (Hh _ _ _ E).
  - destruct bus_propagates.
    + intros [= <- <-]. exact (Hh _ _ _ E).
    + intros Hr. rewrite (IH _ _ _ Hr). exact (Hh _ _ _ E).
Qed.

Lemma steady_emit (name : string) (data : gmap string data_val) :
  steady (emit hk bus_propagates name data).
Proof.
  unfold emit. apply steady_bind; [apply steady_record |]. intros _.
  apply steady_run_handlers.
  pose proof (steady_handlers (mkEvent name data)) as H.
  revert H. generalize (_setup_event_handlers hk).
  induction l as [| [n h] l IH]; intros H; [constructor |].
  cbn [List.map snd] in H. inversion H as [| ? ? Hh Hl]; subst.
  cbn [List.filter fst]. destruct (String.eqb n name); cbn [List.map snd];
    [constructor; [exact Hh |] |]; apply IH; exact Hl.
Qed.

Lemma steady_iteration : steady (iteration hk bus_propagates).
Proof.
  destruct Hhooks as (_ & _ & _ & _ & Hp & Hs).
  unfold iteration. apply steady_try_except.
  - apply steady_bind; [apply steady_call, Hp |]. intros _.
    apply steady_bind; [apply steady_call, Hs |]. intros _. apply steady_ret.
  - intros e. apply steady_bind; [apply steady_record |]. intros _.
    apply steady_bind; [apply steady_emit |]. intros _.
    apply steady_if; apply steady_ret.
Qed.

Lemma steady_loop (fuel : nat) : steady (loop hk bus_propagates fuel).
Proof.
  induction fuel as [| fuel IH]; intros st x st'; cbn [loop];
    destruct (_running (bot st)) eqn:Hr; try discriminate;
    try (intros [= <- <-]; exact Hr).
  destruct (iteration hk bus_propagates st) as [[[[] | e] st1] |] eqn:E;
    [| | | discriminate].
  - intros Hl. rewrite (IH _ _ _ Hl), (steady_iteration _ _ _ E). exact Hr.
  - intros [= <- <-]. rewrite (steady_iteration _ _ _ E). exact Hr.
  - intros [= <- <-]. rewrite (steady_iteration _ _ _ E). exact Hr.
Qed.

Lemma steady_run_guarded (fuel : nat) : steady (run_guarded hk bus_propagates fuel).
Proof.
  destruct Hhooks as (Hstart & _ & _ & Hstop & _ & _).
  unfold run_guarded. apply steady_try_finally.
  - apply steady_try_except.
    + unfold run_body. apply steady_bind; [apply steady_call, Hstart |]. intros _.
      apply steady_bind; [apply steady_emit |]. intros _. apply steady_loop.
    + intros e. apply steady_bind; [apply steady_record |]. intros _.
      apply steady_emit.
  - unfold _cleanup. apply steady_try_except.
    + apply steady_bind; [apply steady_call, Hstop |]. intros _.
      apply steady_bind; [apply steady_emit |]. intros _.
      apply steady_bind; [apply steady_get_bot |]. intros b. apply steady_record.
    + intros e. apply steady_record.
Qed.

(** X23. [run] sets the running flag and never clears it: if no hook
    clears it either, then whenever the [try] statement of [run] finishes
    the flag is as it was at its start. A bot that [run] has left because
    of an error therefore still says that it is running. *)
Theorem run_leaves_flag (fuel : nat) (st0 : St U) (r : result unit) (st' : St U) :
  run_guarded hk bus_propagates fuel st0 = Some (r, st') →
  is_running (bot st') = is_running (bot st0).
Proof. intros H. exact (steady_run_guarded fuel _ _ _ H). Qed.

End RunningFlag.

(** X23 at a bot whose [on_start] raises and that nothing stops: after
    the run it is still marked as running. *)
Lemma run_leaves_flag_witness :
  ∃ r st', run_guarded Examples.unstoppable true 3 (Examples.started 1) = Some (r, st')
           ∧ is_running (bot st') = true.
Proof.
  destruct (run_guarded Examples.unstoppable true 3 (Examples.started 1))
    as [[r st'] |] eqn:E; [| vm_compute in E; discriminate E].
  exists r, st'. split; [reflexivity |].
  apply (run_leaves_flag Examples.unstoppable true) with (fuel := 3)
    (st0 := Examples.started 1) (r := r).
  - repeat split; intros b; reflexivity.
  - exact E.
Defined.

(** ** Bot: how the loop ends *)

Section LoopEnd.
Context {U : Type}.
Variable hk : Hooks U.
Variable bus_propagates : bool.
Open Scope list_scope.



(** X22. Stopping is cooperative: when the flag is cleared while the
    loop sleeps, the pass in progress is completed and the loop ends at
    the next test, with no further call of the processing step, whatever
    fuel is left. *)
Theorem stop_during_sleep (fuel : nat) (st : St U) :
  _running (bot st) = true →
  snd (_process_market_data hk (bot st)) = None →
  snd (env_sleep hk (fst (_process_market_data hk (bot st)))) = None →
  _running (fst (env_sleep hk (fst (_process_market_data hk (bot st))))) = false →
  loop hk bus_propagates (S fuel) st =
  Some (Ok tt,
        mkSt (fst (env_sleep hk (fst (_process_market_data hk (bot st)))))
          (trace st ++ [Called h_process_market_data None; Called h_sleep None])).
Proof.
  intros Hrun Hp Hs Hstop. cbn [loop]. rewrite Hrun.
  unfold iteration, try_except, bind, call, ret.
  destruct (_process_market_data hk (bot st)) as [b1 r1]. cbn [fst snd] in *.
  subst r1. cbn [bot trace].
  destruct (env_sleep hk b1) as [b2 r2]. cbn [fst snd] in *. subst r2.
  rewrite <- app_assoc. cbn [app].
  destruct fuel; cbn [loop bot]; rewrite Hstop; reflexivity.
Qed.

End LoopEnd.


(** X22 at a bot stopped during its first sleep. *)
Lemma stop_during_sleep_witness :
  loop Examples.good true (S 4) (Examples.running 0) =
  Some (Ok tt,
        mkSt (fst (Examples.sleep_countdown
                     (fst (default_process_market_data (bot (Examples.running 0))))))
          (trace (Examples.running 0)
           ++ [Called h_process_market_data None; Called h_sleep None])%list).
Proof.
  apply (stop_during_sleep Examples.good true 4 (Examples.running 0)).
  - reflexivity.
  - reflexivity.
  - reflexivity.
  - reflexivity.
Defined.
